(** * Drainability rules and node drain evaluation of the cluster autoscaler

    A shallow embedding of

      - [simulator.GetPodsToMove] and [simulator.drainabilityStatus]
        (the drain evaluator and its rule chain),
      - [drainability.PdbRule] (the disruption-budget rule bound to a
        [RemainingPdbTracker]),
      - [rules/pdb.Rule] (the same rule reading a [DrainContext]),

    together with the properties of these functions.

    Go values are modelled as follows.  A nilable interface or pointer is an
    [option]; an [error] is its message; a slice is a [list] (a slice whose
    nil-ness is tested by the code is an [option (list _)]); a
    [map[string]string] is a [gmap string string]; [int32] is a [Z]. *)

From Stdlib Require Import ZArith.
From stdpp Require Import base decidable option list sorting gmap strings.

(** A Go [error] value that is not nil, identified with its message. *)
Definition error : Type := string.

(** ** k8s.io/api/core/v1 *)

Module apiv1.

(** The fields of [Pod] the drain evaluation reads: identity, labels and
    the kind of the controlling owner reference, if any. *)
Record Pod : Type := {
  Namespace : string;
  Name : string;
  Labels : gmap string string;
  OwnerKind : option string
}.

End apiv1.

(** ** k8s.io/apimachinery: label selectors

    [metav1.LabelSelectorAsSelector] and [labels.Selector.Matches] belong to
    the Kubernetes API machinery.  The rule only sees them through this
    interface: a conversion that may fail, and a match against a label set. *)

Module metav1.

Class SelectorLib : Type := {
  LabelSelector : Type;
  Selector : Type;
  LabelSelectorAsSelector : option LabelSelector -> Selector + error;
  Matches : Selector -> gmap string string -> bool
}.

End metav1.

(** ** k8s.io/api/policy/v1 *)

Module policyv1.

Section WithSelectors.
Context `{metav1.SelectorLib}.

(** [Namespace] is [pdb.Namespace], [Selector] is [pdb.Spec.Selector] (a
    pointer) and [DisruptionsAllowed] is [pdb.Status.DisruptionsAllowed]. *)
Record PodDisruptionBudget : Type := {
  Namespace : string;
  Selector : option metav1.LabelSelector;
  DisruptionsAllowed : Z
}.

End WithSelectors.

End policyv1.

(** ** cluster-autoscaler/utils/drain *)

Module drain.

(** Modelled from the spec: the reason codes of package [drain], which is
    not part of the sources at hand.  [NoReason] is the zero value. *)
Inductive BlockingPodReason : Type :=
| NoReason
| ControllerNotFound
| MinReplicasReached
| NotReplicated
| LocalStorageRequested
| NotSafeToEvictAnnotation
| UnmovableKubeSystemPod
| NotEnoughPdb
| UnexpectedError.

#[global] Instance BlockingPodReason_eq_dec : EqDecision BlockingPodReason.
Proof. solve_decision. Defined.

(** [drain.BlockingPod], as built by [GetPodsToMove]. *)
Record BlockingPod : Type := {
  Pod : apiv1.Pod;
  Reason : BlockingPodReason
}.

End drain.

(** ** cluster-autoscaler/core/scaledown/pdb *)

Module pdb.

Section WithSelectors.
Context `{metav1.SelectorLib}.

(** The one method of the [RemainingPdbTracker] interface the code calls. *)
Record RemainingPdbTracker : Type := {
  GetPdbs : list policyv1.PodDisruptionBudget
}.

End WithSelectors.

End pdb.

(** ** cluster-autoscaler/simulator/drainability *)

Module drainability.

(** Modelled from the spec: the three-valued outcome tag, whose declaration
    is not part of the sources at hand.  [UndefinedOutcome] is the zero
    value. *)
Inductive OutcomeType : Type :=
| UndefinedOutcome
| DrainOk
| BlockDrain.

#[global] Instance OutcomeType_eq_dec : EqDecision OutcomeType.
Proof. solve_decision. Defined.

(** Modelled from the spec: the [Status] struct, with the three fields the
    sources read ([d.Outcome], [d.BlockingReason], [d.Error]). *)
Record Status : Type := {
  Outcome : OutcomeType;
  BlockingReason : drain.BlockingPodReason;
  Error : option error
}.

(** Modelled from the spec: a status that carries no decision. *)
Definition NewUndefinedStatus : Status :=
  {| Outcome := UndefinedOutcome; BlockingReason := drain.NoReason; Error := None |}.

(** Modelled from the spec: a status that forbids the drain, with its reason
    code and cause. *)
Definition NewBlockedStatus (reason : drain.BlockingPodReason) (err : option error) : Status :=
  {| Outcome := BlockDrain; BlockingReason := reason; Error := err |}.

(** The [Rule] interface of this package: one method, [Drainable]. *)
Record Rule : Type := {
  Drainable : apiv1.Pod -> Status
}.

Section WithSelectors.
Context `{metav1.SelectorLib}.

(** [PdbRule]: the rule bound to a tracker, which may be nil. *)
Record PdbRule : Type := {
  tracker : option pdb.RemainingPdbTracker
}.

Definition NewPdbRule (tracker : option pdb.RemainingPdbTracker) : PdbRule :=
  {| tracker := tracker |}.

(** The two errors the rule creates with [fmt.Errorf]. *)
Definition errConvertSelector : error := "failed to convert label selector"%string.

Definition errNotEnoughPdb (pod : apiv1.Pod) : error :=
  ("not enough pod disruption budget to move " +:+ apiv1.Namespace pod +:+ "/" +:+ apiv1.Name pod)%string.

(** The body of [for _, pdb := range r.tracker.GetPdbs()]. *)
Fixpoint rangePdbs (pod : apiv1.Pod) (pdbs : list policyv1.PodDisruptionBudget) : Status :=
  match pdbs with
  | [] => NewUndefinedStatus
  | pdb :: rest =>
      match metav1.LabelSelectorAsSelector (policyv1.Selector pdb) with
      | inr _ => NewBlockedStatus drain.UnexpectedError (Some errConvertSelector)
      | inl selector =>
          if String.eqb (apiv1.Namespace pod) (policyv1.Namespace pdb)
             && metav1.Matches selector (apiv1.Labels pod)
             && (policyv1.DisruptionsAllowed pdb <? 1)%Z
          then NewBlockedStatus drain.NotEnoughPdb (Some (errNotEnoughPdb pod))
          else rangePdbs pod rest
      end
  end.

(** [func (r *PdbRule) Drainable(pod *apiv1.Pod) Status]. *)
Definition PdbRule_Drainable (r : PdbRule) (pod : apiv1.Pod) : Status :=
  match tracker r with
  | None => NewUndefinedStatus
  | Some t => rangePdbs pod (pdb.GetPdbs t)
  end.

(** [*PdbRule] implements [Rule]. *)
Definition PdbRule_Rule (r : PdbRule) : Rule :=
  {| Drainable := PdbRule_Drainable r |}.

(** *** Vocabulary of the disruption-budget properties *)

(** The budget's selector converts without error. *)
Definition parses (b : policyv1.PodDisruptionBudget) : bool :=
  match metav1.LabelSelectorAsSelector (policyv1.Selector b) with
  | inl _ => true
  | inr _ => false
  end.

(** The budget covers the pod: same namespace, and the selector converts
    and matches the pod's labels. *)
Definition covers (b : policyv1.PodDisruptionBudget) (pod : apiv1.Pod) : bool :=
  match metav1.LabelSelectorAsSelector (policyv1.Selector b) with
  | inl selector =>
      String.eqb (apiv1.Namespace pod) (policyv1.Namespace b)
      && metav1.Matches selector (apiv1.Labels pod)
  | inr _ => false
  end.

(** The budget covers the pod and has no disruption left. *)
Definition exhausts (b : policyv1.PodDisruptionBudget) (pod : apiv1.Pod) : bool :=
  covers b pod && (policyv1.DisruptionsAllowed b <? 1)%Z.

(** The budget ends the loop of the rule for this pod: its selector does
    not convert, or it covers the pod and has no disruption left. *)
Definition stops (b : policyv1.PodDisruptionBudget) (pod : apiv1.Pod) : bool :=
  negb (parses b) || exhausts b pod.

(** The status of the rule when that budget ends the loop. *)
Definition verdictOf (b : policyv1.PodDisruptionBudget) (pod : apiv1.Pod) : Status :=
  if parses b
  then NewBlockedStatus drain.NotEnoughPdb (Some (errNotEnoughPdb pod))
  else NewBlockedStatus drain.UnexpectedError (Some errConvertSelector).

End WithSelectors.

End drainability.

(** ** cluster-autoscaler/simulator/drainability/context *)

Module context.

Section WithSelectors.
Context `{metav1.SelectorLib}.

(** The field of [DrainContext] the rule reads. *)
Record DrainContext : Type := {
  Pdbs : list policyv1.PodDisruptionBudget
}.

End WithSelectors.

End context.

(** ** cluster-autoscaler/simulator/drainability/rules/pdb *)

Module rules_pdb.

Import drainability.

Section WithSelectors.
Context `{metav1.SelectorLib}.

(** [type Rule struct{}] and its constructor. *)
Record Rule : Type := mkRule { }.

Definition New : Rule := mkRule.

(** The body of [for _, pdb := range drainCtx.Pdbs]. *)
Fixpoint rangePdbs (pod : apiv1.Pod) (pdbs : list policyv1.PodDisruptionBudget) : Status :=
  match pdbs with
  | [] => NewUndefinedStatus
  | pdb :: rest =>
      match metav1.LabelSelectorAsSelector (policyv1.Selector pdb) with
      | inr _ => NewBlockedStatus drain.UnexpectedError (Some errConvertSelector)
      | inl selector =>
          if String.eqb (apiv1.Namespace pod) (policyv1.Namespace pdb)
             && metav1.Matches selector (apiv1.Labels pod)
             && (policyv1.DisruptionsAllowed pdb <? 1)%Z
          then NewBlockedStatus drain.NotEnoughPdb (Some (errNotEnoughPdb pod))
          else rangePdbs pod rest
      end
  end.

(** [func (Rule) Drainable(drainCtx *context.DrainContext, pod *apiv1.Pod) drainability.Status]. *)
Definition Drainable (_ : Rule) (drainCtx : context.DrainContext) (pod : apiv1.Pod) : Status :=
  rangePdbs pod (context.Pdbs drainCtx).

End WithSelectors.

End rules_pdb.

(** ** cluster-autoscaler/simulator/drainability/rules *)

Module rules.

Section WithSelectors.
Context `{metav1.SelectorLib}.

(** The [Rule] interface of this package: [Drainable] takes the drain
    context as well. *)
Record Rule : Type := {
  Drainable : context.DrainContext -> apiv1.Pod -> drainability.Status
}.

(** [mirror.New()] is outside the sources at hand. *)
Variable mirror_New : Rule.

Definition Default : list Rule :=
  [ mirror_New;
    {| Drainable := rules_pdb.Drainable rules_pdb.New |} ].

End WithSelectors.

End rules.

(** ** k8s.io/kubernetes/pkg/scheduler/framework *)

Module schedulerframework.

Record PodInfo : Type := {
  Pod : apiv1.Pod
}.

Record NodeInfo : Type := {
  Pods : list PodInfo
}.

End schedulerframework.

(** ** cluster-autoscaler/config *)

Module config.

(** The fields of [AutoscalingOptions] that [NewNodeDeleteOptions] reads. *)
Record AutoscalingOptions : Type := {
  SkipNodesWithSystemPods : bool;
  SkipNodesWithLocalStorage : bool;
  SkipNodesWithCustomControllerPods : bool;
  MinReplicaCount : Z
}.

End config.

(** ** cluster-autoscaler/simulator *)

Module simulator.

Import drainability.

(** Go's conversion [int32(x)] of an [int]: the low 32 bits, read as a
    signed number. *)
Definition int32 (x : Z) : Z :=
  ((x + 2 ^ 31) mod 2 ^ 32 - 2 ^ 31)%Z.

(** [drainabilityStatus]: the rule chain. *)
Fixpoint drainabilityStatus (pod : apiv1.Pod) (dr : list Rule) : Status :=
  match dr with
  | [] => {| Outcome := UndefinedOutcome; BlockingReason := drain.NoReason; Error := None |}
  | f :: rest =>
      let d := Drainable f pod in
      if decide (Outcome d ≠ UndefinedOutcome) then d
      else drainabilityStatus pod rest
  end.

(** The four results of [GetPodsToMove]. *)
Record Result : Type := {
  pods : list apiv1.Pod;
  daemonSetPods : list apiv1.Pod;
  blockingPod : option drain.BlockingPod;
  err : option error
}.

(** How the loop over [nodeInfo.Pods] ends: by the [return] of the
    [BlockDrain] case, with the value [pods] has then, or by running out of
    pods, with the three lists it has built. *)
Inductive LoopExit : Type :=
| Blocked (pods : list apiv1.Pod) (blockingPod : drain.BlockingPod) (err : option error)
| Finished (pods drainPods drainDS : list apiv1.Pod).

Section WithCollaborators.
Context `{metav1.SelectorLib}.

(** The collaborators of [GetPodsToMove] that live in other packages:
    [kube_util.ListerRegistry], [time.Time], [pod_util.IsDaemonSetPod],
    [drainability.DefaultRules] and [drain.GetPodsForDeletionOnNodeDrain]. *)
Class Collaborators : Type := {
  ListerRegistry : Type;
  Time : Type;
  IsDaemonSetPod : apiv1.Pod -> bool;
  DefaultRules : option pdb.RemainingPdbTracker -> list Rule;
  GetPodsForDeletionOnNodeDrain :
    list apiv1.Pod -> list policyv1.PodDisruptionBudget ->
    bool -> bool -> bool -> option ListerRegistry -> Z -> Time ->
    list apiv1.Pod * list apiv1.Pod * option drain.BlockingPod * option error
}.

Context `{Collaborators}.

(** [NodeDeleteOptions]; [DrainabilityRules] is a slice the code compares
    with nil. *)
Record NodeDeleteOptions : Type := {
  SkipNodesWithSystemPods : bool;
  SkipNodesWithLocalStorage : bool;
  SkipNodesWithCustomControllerPods : bool;
  MinReplicaCount : Z;
  DrainabilityRules : option (list Rule)
}.

(** [NewNodeDeleteOptions].  The slice that [drainability.DefaultRules]
    returns is stored as a slice that is not nil. *)
Definition NewNodeDeleteOptions (opts : config.AutoscalingOptions)
    (remainingPdbTracker : option pdb.RemainingPdbTracker) : NodeDeleteOptions :=
  {| SkipNodesWithSystemPods := config.SkipNodesWithSystemPods opts;
     SkipNodesWithLocalStorage := config.SkipNodesWithLocalStorage opts;
     MinReplicaCount := config.MinReplicaCount opts;
     SkipNodesWithCustomControllerPods := config.SkipNodesWithCustomControllerPods opts;
     DrainabilityRules := Some (DefaultRules remainingPdbTracker) |}.

(** The loop [for _, podInfo := range nodeInfo.Pods], threading the three
    slices [pods], [drainPods] and [drainDS]. *)
Fixpoint rangePods (drainabilityRules : list Rule) (podInfos : list schedulerframework.PodInfo)
    (pods drainPods drainDS : list apiv1.Pod) : LoopExit :=
  match podInfos with
  | [] => Finished pods drainPods drainDS
  | podInfo :: rest =>
      let pod := schedulerframework.Pod podInfo in
      let d := drainabilityStatus pod drainabilityRules in
      match Outcome d with
      | UndefinedOutcome =>
          rangePods drainabilityRules rest (pods ++ [schedulerframework.Pod podInfo]) drainPods drainDS
      | DrainOk =>
          if IsDaemonSetPod pod
          then rangePods drainabilityRules rest pods drainPods (drainDS ++ [pod])
          else rangePods drainabilityRules rest pods (drainPods ++ [pod]) drainDS
      | BlockDrain =>
          Blocked pods {| drain.Pod := pod; drain.Reason := BlockingReason d |} (Error d)
      end
  end.

(** The rules [GetPodsToMove] uses: those of the options, or the default
    ones for the tracker when the options carry none. *)
Definition rulesInUse (deleteOptions : NodeDeleteOptions)
    (remainingPdbTracker : option pdb.RemainingPdbTracker) : list Rule :=
  match DrainabilityRules deleteOptions with
  | None => DefaultRules remainingPdbTracker
  | Some drainabilityRules => drainabilityRules
  end.

(** The budgets handed to the legacy check. *)
Definition pdbsOf (remainingPdbTracker : option pdb.RemainingPdbTracker) :
    list policyv1.PodDisruptionBudget :=
  match remainingPdbTracker with
  | Some t => pdb.GetPdbs t
  | None => []
  end.

(** [GetPodsToMove]. *)
Definition GetPodsToMove (nodeInfo : schedulerframework.NodeInfo) (deleteOptions : NodeDeleteOptions)
    (listers : option ListerRegistry) (remainingPdbTracker : option pdb.RemainingPdbTracker)
    (timestamp : Time) : Result :=
  let drainabilityRules := rulesInUse deleteOptions remainingPdbTracker in
  match rangePods drainabilityRules (schedulerframework.Pods nodeInfo) [] [] [] with
  | Blocked pods blockingPod err =>
      {| pods := pods; daemonSetPods := []; blockingPod := Some blockingPod; err := err |}
  | Finished pods drainPods drainDS =>
      let pdbs := pdbsOf remainingPdbTracker in
      let '(pods, daemonSetPods, blockingPod, err) :=
        GetPodsForDeletionOnNodeDrain pods pdbs
          (SkipNodesWithSystemPods deleteOptions)
          (SkipNodesWithLocalStorage deleteOptions)
          (SkipNodesWithCustomControllerPods deleteOptions)
          listers (int32 (MinReplicaCount deleteOptions)) timestamp in
      let pods := pods ++ drainPods in
      let daemonSetPods := daemonSetPods ++ drainDS in
      match err with
      | Some e => {| pods := pods; daemonSetPods := daemonSetPods; blockingPod := blockingPod; err := Some e |}
      | None => {| pods := pods; daemonSetPods := daemonSetPods; blockingPod := None; err := None |}
      end
  end.

(** *** Vocabulary of the drain evaluator's properties *)

(** The pods of a node, in the order of [nodeInfo.Pods]. *)
Definition podsOf (podInfos : list schedulerframework.PodInfo) : list apiv1.Pod :=
  map schedulerframework.Pod podInfos.

(** The rule chain blocks none of the pods. *)
Definition noBlock (dr : list Rule) (podInfos : list schedulerframework.PodInfo) : Prop :=
  Forall (fun podInfo =>
            Outcome (drainabilityStatus (schedulerframework.Pod podInfo) dr) ≠ BlockDrain)
         podInfos.

(** The rule chain blocks [k], and none of the pods of [pre], which come
    before it. *)
Definition firstBlock (dr : list Rule) (pre : list schedulerframework.PodInfo)
    (k : schedulerframework.PodInfo) : Prop :=
  noBlock dr pre ∧ Outcome (drainabilityStatus (schedulerframework.Pod k) dr) = BlockDrain.

(** The pods the chain leaves undecided, those it allows that are not
    daemon-set pods, and those it allows that are. *)
Definition undecided (dr : list Rule) (ps : list apiv1.Pod) : list apiv1.Pod :=
  filter (fun pod => Outcome (drainabilityStatus pod dr) = UndefinedOutcome) ps.

Definition allowedMovable (dr : list Rule) (ps : list apiv1.Pod) : list apiv1.Pod :=
  filter (fun pod => Outcome (drainabilityStatus pod dr) = DrainOk ∧ IsDaemonSetPod pod = false) ps.

Definition allowedDaemons (dr : list Rule) (ps : list apiv1.Pod) : list apiv1.Pod :=
  filter (fun pod => Outcome (drainabilityStatus pod dr) = DrainOk ∧ IsDaemonSetPod pod = true) ps.

(** The call of the legacy check on the undecided pods of the node, with
    the arguments [GetPodsToMove] passes. *)
Definition legacyCall (nodeInfo : schedulerframework.NodeInfo) (deleteOptions : NodeDeleteOptions)
    (listers : option ListerRegistry) (remainingPdbTracker : option pdb.RemainingPdbTracker)
    (timestamp : Time) :
    list apiv1.Pod * list apiv1.Pod * option drain.BlockingPod * option error :=
  GetPodsForDeletionOnNodeDrain
    (undecided (rulesInUse deleteOptions remainingPdbTracker)
               (podsOf (schedulerframework.Pods nodeInfo)))
    (pdbsOf remainingPdbTracker)
    (SkipNodesWithSystemPods deleteOptions)
    (SkipNodesWithLocalStorage deleteOptions)
    (SkipNodesWithCustomControllerPods deleteOptions)
    listers (int32 (MinReplicaCount deleteOptions)) timestamp.

End WithCollaborators.

End simulator.

(** ** The loop of [GetPodsToMove] with a log of the rule evaluations

    To speak about which rules are evaluated on which pods, and in which
    order, every call [f.Drainable(pod)] is recorded: the position of the
    pod in [nodeInfo.Pods], the pod, and the position of the rule in the
    chain. *)

Module evaluations.

Import drainability simulator.

Record Evaluation : Type := {
  atPod : nat;
  ofPod : apiv1.Pod;
  byRule : nat
}.

(** A computation that appends to the log. *)
Definition Logged (A : Type) : Type := (A * list Evaluation)%type.

Definition ret {A : Type} (a : A) : Logged A := (a, []).

Definition bind {A B : Type} (m : Logged A) (k : A -> Logged B) : Logged B :=
  let '(a, l1) := m in
  let '(b, l2) := k a in
  (b, l1 ++ l2).

Notation "'let*' x ':=' m 'in' k" := (bind m (fun x => k))
  (at level 10, x name, m at level 100, k at level 200).

(** One call [f.Drainable(pod)]. *)
Definition callDrainable (i j : nat) (f : Rule) (pod : apiv1.Pod) : Logged Status :=
  (Drainable f pod, [ {| atPod := i; ofPod := pod; byRule := j |} ]).

(** [drainabilityStatus] for the pod at position [i], the rules counted
    from [j]. *)
Fixpoint drainabilityStatus (i : nat) (pod : apiv1.Pod) (j : nat) (dr : list Rule) : Logged Status :=
  match dr with
  | [] => ret {| Outcome := UndefinedOutcome; BlockingReason := drain.NoReason; Error := None |}
  | f :: rest =>
      let* d := callDrainable i j f pod in
      if decide (Outcome d ≠ UndefinedOutcome) then ret d
      else drainabilityStatus i pod (S j) rest
  end.

Section WithCollaborators.
Context `{metav1.SelectorLib} `{!simulator.Collaborators}.

(** The loop over [nodeInfo.Pods], the pods counted from [i]. *)
Fixpoint rangePods (drainabilityRules : list Rule) (i : nat)
    (podInfos : list schedulerframework.PodInfo)
    (pods drainPods drainDS : list apiv1.Pod) : Logged LoopExit :=
  match podInfos with
  | [] => ret (Finished pods drainPods drainDS)
  | podInfo :: rest =>
      let pod := schedulerframework.Pod podInfo in
      let* d := drainabilityStatus i pod 0 drainabilityRules in
      match Outcome d with
      | UndefinedOutcome =>
          rangePods drainabilityRules (S i) rest (pods ++ [schedulerframework.Pod podInfo]) drainPods drainDS
      | DrainOk =>
          if IsDaemonSetPod pod
          then rangePods drainabilityRules (S i) rest pods drainPods (drainDS ++ [pod])
          else rangePods drainabilityRules (S i) rest pods (drainPods ++ [pod]) drainDS
      | BlockDrain =>
          ret (Blocked pods {| drain.Pod := pod; drain.Reason := BlockingReason d |} (Error d))
      end
  end.

(** The rule evaluations of one call of [GetPodsToMove]: those of its loop
    (nothing else in the function calls a rule of the chain). *)
Definition GetPodsToMove_log (nodeInfo : schedulerframework.NodeInfo)
    (deleteOptions : NodeDeleteOptions)
    (remainingPdbTracker : option pdb.RemainingPdbTracker) : list Evaluation :=
  snd (rangePods (rulesInUse deleteOptions remainingPdbTracker) 0
         (schedulerframework.Pods nodeInfo) [] [] []).

End WithCollaborators.

End evaluations.

(** ** Concrete collaborators and scenarios

    A small implementation of the collaborators, on which the functions
    above can be run: a label selector with match-labels and set-based
    expressions whose conversion fails on an unknown operator, a daemon-set
    test on the owner kind, and a legacy check that blocks on a pod without
    a controller. *)

Module scenarios.

Import drainability simulator.

Record LabelSelectorRequirement : Type := {
  Key : string;
  Operator : string;
  Values : list string
}.

Record LabelSelector : Type := {
  MatchLabels : gmap string string;
  MatchExpressions : list LabelSelectorRequirement
}.

Inductive Op : Type := OpIn | OpNotIn | OpExists | OpDoesNotExist.

(** A converted selector; [None] selects nothing. *)
Definition Selector : Type :=
  option (gmap string string * list (string * Op * list string)).

Definition operatorOf (s : string) : option Op :=
  if String.eqb s "In" then Some OpIn
  else if String.eqb s "NotIn" then Some OpNotIn
  else if String.eqb s "Exists" then Some OpExists
  else if String.eqb s "DoesNotExist" then Some OpDoesNotExist
  else None.

Fixpoint requirementsOf (exprs : list LabelSelectorRequirement) :
    list (string * Op * list string) + error :=
  match exprs with
  | [] => inl []
  | expr :: rest =>
      match operatorOf (Operator expr) with
      | None => inr (Operator expr +:+ " is not a valid label selector operator")%string
      | Some op =>
          match requirementsOf rest with
          | inl rs => inl ((Key expr, op, Values expr) :: rs)
          | inr e => inr e
          end
      end
  end.

Definition LabelSelectorAsSelector (ps : option LabelSelector) : Selector + error :=
  match ps with
  | None => inl None
  | Some ps =>
      match requirementsOf (MatchExpressions ps) with
      | inl rs => inl (Some (MatchLabels ps, rs))
      | inr e => inr e
      end
  end.

Definition holds (labels : gmap string string) (r : string * Op * list string) : bool :=
  let '(key, op, values) := r in
  match op, labels !! key with
  | OpIn, Some v => bool_decide (v ∈ values)
  | OpIn, None => false
  | OpNotIn, Some v => negb (bool_decide (v ∈ values))
  | OpNotIn, None => true
  | OpExists, o => bool_decide (is_Some o)
  | OpDoesNotExist, o => negb (bool_decide (is_Some o))
  end.

Definition Matches (s : Selector) (labels : gmap string string) : bool :=
  match s with
  | None => false
  | Some (matchLabels, rs) =>
      bool_decide (map_Forall (fun k v => labels !! k = Some v) matchLabels)
      && forallb (holds labels) rs
  end.

#[global] Instance selectors : metav1.SelectorLib := {|
  metav1.LabelSelector := LabelSelector;
  metav1.Selector := Selector;
  metav1.LabelSelectorAsSelector := LabelSelectorAsSelector;
  metav1.Matches := Matches
|}.

(** The legacy check of the scenarios: daemon-set pods are evicted, pods
    with another controller are moved, and the first pod without a
    controller blocks the node. *)
Fixpoint legacy (todo movable daemons : list apiv1.Pod) :
    list apiv1.Pod * list apiv1.Pod * option drain.BlockingPod * option error :=
  match todo with
  | [] => (movable, daemons, None, None)
  | pod :: rest =>
      match apiv1.OwnerKind pod with
      | None =>
          ([], [], Some {| drain.Pod := pod; drain.Reason := drain.NotReplicated |},
           Some (apiv1.Namespace pod +:+ "/" +:+ apiv1.Name pod +:+ " is not replicated")%string)
      | Some kind =>
          if String.eqb kind "DaemonSet"
          then legacy rest movable (daemons ++ [pod])
          else legacy rest (movable ++ [pod]) daemons
      end
  end.

#[global] Instance collaborators : simulator.Collaborators := {|
  ListerRegistry := unit;
  Time := Z;
  IsDaemonSetPod := fun pod => bool_decide (apiv1.OwnerKind pod = Some "DaemonSet"%string);
  DefaultRules := fun tracker => [ PdbRule_Rule (NewPdbRule tracker) ];
  GetPodsForDeletionOnNodeDrain := fun pods _ _ _ _ _ _ _ => legacy pods [] []
|}.

(** Pods. *)
Definition web : apiv1.Pod :=
  {| apiv1.Namespace := "default"; apiv1.Name := "web-0";
     apiv1.Labels := {[ "app"%string := "web"%string ]};
     apiv1.OwnerKind := Some "ReplicaSet"%string |}.

Definition webTwin : apiv1.Pod :=
  {| apiv1.Namespace := "default"; apiv1.Name := "web-1";
     apiv1.Labels := {[ "app"%string := "web"%string ]};
     apiv1.OwnerKind := Some "Job"%string |}.

Definition db : apiv1.Pod :=
  {| apiv1.Namespace := "default"; apiv1.Name := "db-0";
     apiv1.Labels := {[ "app"%string := "db"%string ]};
     apiv1.OwnerKind := Some "StatefulSet"%string |}.

Definition logger : apiv1.Pod :=
  {| apiv1.Namespace := "kube-system"; apiv1.Name := "logger-x";
     apiv1.Labels := {[ "app"%string := "logger"%string ]};
     apiv1.OwnerKind := Some "DaemonSet"%string |}.

Definition bare : apiv1.Pod :=
  {| apiv1.Namespace := "default"; apiv1.Name := "bare";
     apiv1.Labels := ∅;
     apiv1.OwnerKind := None |}.

(** Budgets: for [web] with no disruption left and with one left, for [db]
    with two left and with none left, and one whose selector does not
    convert. *)
Definition appIs (app : string) : option LabelSelector :=
  Some {| MatchLabels := {[ "app"%string := app ]}; MatchExpressions := [] |}.

Definition webExhausted : policyv1.PodDisruptionBudget :=
  {| policyv1.Namespace := "default"; policyv1.Selector := appIs "web";
     policyv1.DisruptionsAllowed := 0 |}.

Definition webOpen : policyv1.PodDisruptionBudget :=
  {| policyv1.Namespace := "default"; policyv1.Selector := appIs "web";
     policyv1.DisruptionsAllowed := 1 |}.

Definition dbOpen : policyv1.PodDisruptionBudget :=
  {| policyv1.Namespace := "default"; policyv1.Selector := appIs "db";
     policyv1.DisruptionsAllowed := 2 |}.

Definition dbExhausted : policyv1.PodDisruptionBudget :=
  {| policyv1.Namespace := "default"; policyv1.Selector := appIs "db";
     policyv1.DisruptionsAllowed := 0 |}.

Definition malformed : policyv1.PodDisruptionBudget :=
  {| policyv1.Namespace := "default";
     policyv1.Selector :=
       Some {| MatchLabels := ∅;
               MatchExpressions := [ {| Key := "app"; Operator := "Near"; Values := ["web"%string] |} ] |};
     policyv1.DisruptionsAllowed := 3 |}.

Definition trackerOf (pdbs : list policyv1.PodDisruptionBudget) : option pdb.RemainingPdbTracker :=
  Some {| pdb.GetPdbs := pdbs |}.

(** Rules: one that allows every pod of [kube-system] and every pod named
    [web-0], one that blocks the pod named [db-0] without giving a cause. *)
Definition allowSystem : Rule :=
  {| Drainable := fun pod =>
       if String.eqb (apiv1.Namespace pod) "kube-system" || String.eqb (apiv1.Name pod) "web-0"
       then {| Outcome := DrainOk; BlockingReason := drain.NoReason; Error := None |}
       else NewUndefinedStatus |}.

Definition blockDbSilently : Rule :=
  {| Drainable := fun pod =>
       if String.eqb (apiv1.Name pod) "db-0"
       then NewBlockedStatus drain.UnexpectedError None
       else NewUndefinedStatus |}.

Definition infoOf (p : apiv1.Pod) : schedulerframework.PodInfo :=
  {| schedulerframework.Pod := p |}.

Definition nodeOf (ps : list apiv1.Pod) : schedulerframework.NodeInfo :=
  {| schedulerframework.Pods := map infoOf ps |}.

Definition now : Time := 0%Z.

Definition later : Time := 3600%Z.

Definition someListers : option ListerRegistry := Some tt.

Definition autoscaling : config.AutoscalingOptions :=
  {| config.SkipNodesWithSystemPods := true;
     config.SkipNodesWithLocalStorage := false;
     config.SkipNodesWithCustomControllerPods := false;
     config.MinReplicaCount := 2 |}.

Definition optionsWith (rules : option (list Rule)) : NodeDeleteOptions :=
  {| SkipNodesWithSystemPods := true;
     SkipNodesWithLocalStorage := true;
     SkipNodesWithCustomControllerPods := false;
     MinReplicaCount := 0;
     DrainabilityRules := rules |}.

End scenarios.

(** * Properties of the disruption-budget rule *)

Module PdbRuleSpec.

Import drainability.

Section WithSelectors.
Context `{metav1.SelectorLib}.

Implicit Types (pod : apiv1.Pod) (b : policyv1.PodDisruptionBudget)
  (pdbs : list policyv1.PodDisruptionBudget).

(** The three ways one iteration of the loop can go. *)
Lemma rangePdbs_malformed pod b pdbs :
  parses b = false ->
  rangePdbs pod (b :: pdbs) = NewBlockedStatus drain.UnexpectedError (Some errConvertSelector).
Proof.
  unfold parses. cbn [rangePdbs].
  destruct (metav1.LabelSelectorAsSelector (policyv1.Selector b)); [discriminate | reflexivity].
Qed.

Lemma rangePdbs_exhausted pod b pdbs :
  exhausts b pod = true ->
  rangePdbs pod (b :: pdbs) = NewBlockedStatus drain.NotEnoughPdb (Some (errNotEnoughPdb pod)).
Proof.
  unfold exhausts, covers. cbn [rangePdbs].
  destruct (metav1.LabelSelectorAsSelector (policyv1.Selector b)) as [sel|e]; cbn.
  - intros ->. reflexivity.
  - discriminate.
Qed.

Lemma rangePdbs_continue pod b pdbs :
  parses b = true -> exhausts b pod = false ->
  rangePdbs pod (b :: pdbs) = rangePdbs pod pdbs.
Proof.
  unfold parses, exhausts, covers. cbn [rangePdbs].
  destruct (metav1.LabelSelectorAsSelector (policyv1.Selector b)) as [sel|e]; cbn.
  - intros _ ->. reflexivity.
  - discriminate.
Qed.

(** The rule of package [rules/pdb] runs the same loop. *)
Lemma rules_pdb_rangePdbs pod pdbs :
  rules_pdb.rangePdbs pod pdbs = rangePdbs pod pdbs.
Proof.
  induction pdbs as [|b pdbs IH]; cbn; [reflexivity|].
  rewrite IH. reflexivity.
Qed.

Lemma exhausts_covers b pod :
  covers b pod = true -> (policyv1.DisruptionsAllowed b < 1)%Z -> exhausts b pod = true.
Proof.
  intros Hc Hd. unfold exhausts. rewrite Hc. cbn. apply Z.ltb_lt. exact Hd.
Qed.

Lemma rangePdbs_first_exhausted pod pre b post :
  Forall (fun b' => parses b' = true) pre ->
  exhausts b pod = true ->
  rangePdbs pod (pre ++ b :: post) = NewBlockedStatus drain.NotEnoughPdb (Some (errNotEnoughPdb pod)).
Proof.
  intros Hpre Hb. induction Hpre as [|b' pre Hb' _ IH]; cbn [app].
  - apply rangePdbs_exhausted, Hb.
  - destruct (exhausts b' pod) eqn:E.
    + apply rangePdbs_exhausted, E.
    + rewrite rangePdbs_continue by assumption. exact IH.
Qed.

Lemma rangePdbs_first_malformed pod pre b post :
  Forall (fun b' => exhausts b' pod = false) pre ->
  parses b = false ->
  rangePdbs pod (pre ++ b :: post) = NewBlockedStatus drain.UnexpectedError (Some errConvertSelector).
Proof.
  intros Hpre Hb. induction Hpre as [|b' pre Hb' _ IH]; cbn [app].
  - apply rangePdbs_malformed, Hb.
  - destruct (parses b') eqn:E.
    + rewrite rangePdbs_continue by assumption. exact IH.
    + apply rangePdbs_malformed, E.
Qed.

Lemma rangePdbs_undefined pod pdbs :
  Forall (fun b => parses b = true) pdbs ->
  Forall (fun b => covers b pod = true -> (1 <= policyv1.DisruptionsAllowed b)%Z) pdbs ->
  rangePdbs pod pdbs = NewUndefinedStatus.
Proof.
  intros Hp. induction Hp as [|b pdbs Hb _ IH]; intros Hc; [reflexivity|].
  apply Forall_cons in Hc as [Hcb Hc].
  rewrite rangePdbs_continue; [auto | exact Hb |].
  unfold exhausts. destruct (covers b pod); [|reflexivity].
  cbn. apply Z.ltb_ge. auto.
Qed.

(** C5 (as amended).  If a budget of the snapshot covers the pod and has
    fewer than one disruption left, and the selector of every budget that
    comes before it in the snapshot converts, then [PdbRule.Drainable]
    returns a blocked status with reason [NotEnoughPdb] and the error
    "not enough pod disruption budget to move <namespace>/<name>" of that
    pod.  The rule of package [rules/pdb] does the same on a drain context
    with these budgets. *)
Theorem Drainable_exhausted_budget_blocks (t : pdb.RemainingPdbTracker) pod pre b post :
  pdb.GetPdbs t = pre ++ b :: post ->
  Forall (fun b' => parses b' = true) pre ->
  covers b pod = true ->
  (policyv1.DisruptionsAllowed b < 1)%Z ->
  PdbRule_Drainable (NewPdbRule (Some t)) pod
    = NewBlockedStatus drain.NotEnoughPdb
        (Some ("not enough pod disruption budget to move "
               +:+ apiv1.Namespace pod +:+ "/" +:+ apiv1.Name pod)%string)
  /\ rules_pdb.Drainable rules_pdb.New {| context.Pdbs := pdb.GetPdbs t |} pod
    = PdbRule_Drainable (NewPdbRule (Some t)) pod.
Proof.
  intros Hsnap Hpre Hc Hd. split.
  - unfold PdbRule_Drainable; cbn [tracker NewPdbRule]. rewrite Hsnap.
    apply rangePdbs_first_exhausted; [exact Hpre|].
    apply exhausts_covers; assumption.
  - unfold rules_pdb.Drainable, PdbRule_Drainable; cbn [tracker NewPdbRule context.Pdbs].
    apply rules_pdb_rangePdbs.
Qed.

(** C6 (as amended).  If the selector of a budget of the snapshot does not
    convert, and no budget that comes before it in the snapshot covers the
    pod with fewer than one disruption left, then [PdbRule.Drainable]
    returns a blocked status with reason [UnexpectedError] and the error
    "failed to convert label selector", whatever budgets follow. *)
Theorem Drainable_malformed_selector_blocks (t : pdb.RemainingPdbTracker) pod pre b post :
  pdb.GetPdbs t = pre ++ b :: post ->
  parses b = false ->
  Forall (fun b' => exhausts b' pod = false) pre ->
  PdbRule_Drainable (NewPdbRule (Some t)) pod
    = NewBlockedStatus drain.UnexpectedError (Some "failed to convert label selector"%string).
Proof.
  intros Hsnap Hb Hpre.
  unfold PdbRule_Drainable; cbn [tracker NewPdbRule]. rewrite Hsnap.
  apply rangePdbs_first_malformed; assumption.
Qed.

(** C7 (as amended).  If the selector of every budget of the snapshot
    converts, and every budget that covers the pod (possibly none) has at
    least one disruption left, then [PdbRule.Drainable] returns the
    undefined status; in particular it does not block. *)
Theorem Drainable_never_blocks_without_exhausted_budget
    (r : PdbRule) pod :
  Forall (fun b => parses b = true) (simulator.pdbsOf (tracker r)) ->
  Forall (fun b => covers b pod = true -> (1 <= policyv1.DisruptionsAllowed b)%Z)
         (simulator.pdbsOf (tracker r)) ->
  PdbRule_Drainable r pod = NewUndefinedStatus
  /\ Outcome (PdbRule_Drainable r pod) <> BlockDrain.
Proof.
  intros Hp Hc.
  assert (E : PdbRule_Drainable r pod = NewUndefinedStatus).
  { unfold PdbRule_Drainable. destruct (tracker r) as [t|]; cbn in *.
    - apply rangePdbs_undefined; assumption.
    - reflexivity. }
  split; [exact E|]. rewrite E. discriminate.
Qed.

(** C8.  With no tracker, [PdbRule.Drainable] returns the undefined status
    for every pod; so does the rule of package [rules/pdb] on a drain
    context without budgets. *)
Theorem Drainable_nil_tracker pod :
  PdbRule_Drainable (NewPdbRule None) pod = NewUndefinedStatus
  /\ Outcome (PdbRule_Drainable (NewPdbRule None) pod) = UndefinedOutcome
  /\ rules_pdb.Drainable rules_pdb.New {| context.Pdbs := [] |} pod = NewUndefinedStatus.
Proof. repeat split. Qed.

End WithSelectors.

(** ** The properties on the scenarios *)

Import scenarios.

Lemma Drainable_exhausted_budget_blocks_witness :
  PdbRule_Drainable (NewPdbRule (trackerOf [dbOpen; webExhausted; malformed])) web
    = NewBlockedStatus drain.NotEnoughPdb
        (Some "not enough pod disruption budget to move default/web-0"%string)
  /\ rules_pdb.Drainable rules_pdb.New {| context.Pdbs := [dbOpen; webExhausted; malformed] |} web
    = PdbRule_Drainable (NewPdbRule (trackerOf [dbOpen; webExhausted; malformed])) web.
Proof.
  apply (Drainable_exhausted_budget_blocks
           {| pdb.GetPdbs := [dbOpen; webExhausted; malformed] |} web
           [dbOpen] webExhausted [malformed]).
  - reflexivity.
  - repeat constructor.
  - vm_compute. reflexivity.
  - vm_compute. reflexivity.
Defined.

(** C5 as stated fails: [webExhausted] covers [web] and has no disruption
    left, yet the rule reports [UnexpectedError], because the budget before
    it has a selector that does not convert. *)
Lemma exhausted_budget_behind_malformed_one :
  covers webExhausted web = true
  /\ (policyv1.DisruptionsAllowed webExhausted < 1)%Z
  /\ PdbRule_Drainable (NewPdbRule (trackerOf [malformed; webExhausted])) web
     = NewBlockedStatus drain.UnexpectedError (Some "failed to convert label selector"%string)
  /\ BlockingReason (PdbRule_Drainable (NewPdbRule (trackerOf [malformed; webExhausted])) web)
     <> drain.NotEnoughPdb.
Proof. vm_compute. repeat split; discriminate. Qed.

Lemma Drainable_malformed_selector_blocks_witness :
  PdbRule_Drainable (NewPdbRule (trackerOf [webOpen; dbOpen; malformed; webExhausted])) web
    = NewBlockedStatus drain.UnexpectedError (Some "failed to convert label selector"%string).
Proof.
  apply (Drainable_malformed_selector_blocks
           {| pdb.GetPdbs := [webOpen; dbOpen; malformed; webExhausted] |} web
           [webOpen; dbOpen] malformed [webExhausted]).
  - reflexivity.
  - vm_compute. reflexivity.
  - repeat constructor.
Defined.

(** C6 as stated fails: the selector of [malformed] does not convert, yet
    the rule reports [NotEnoughPdb], because a budget before it covers the
    pod and has no disruption left. *)
Lemma malformed_budget_behind_exhausted_one :
  parses malformed = false
  /\ PdbRule_Drainable (NewPdbRule (trackerOf [webExhausted; malformed])) web
     = NewBlockedStatus drain.NotEnoughPdb
         (Some "not enough pod disruption budget to move default/web-0"%string)
  /\ BlockingReason (PdbRule_Drainable (NewPdbRule (trackerOf [webExhausted; malformed])) web)
     <> drain.UnexpectedError.
Proof. vm_compute. repeat split; discriminate. Qed.

Lemma Drainable_never_blocks_without_exhausted_budget_witness :
  PdbRule_Drainable (NewPdbRule (trackerOf [dbOpen; webOpen])) web = NewUndefinedStatus
  /\ Outcome (PdbRule_Drainable (NewPdbRule (trackerOf [dbOpen; webOpen])) web) <> BlockDrain.
Proof.
  apply (Drainable_never_blocks_without_exhausted_budget
           (NewPdbRule (trackerOf [dbOpen; webOpen])) web).
  - repeat constructor.
  - repeat constructor; vm_compute; congruence.
Defined.

(** C7 as stated fails: no budget of the snapshot covers [web], yet the
    rule blocks it, because a selector does not convert. *)
Lemma uncovered_pod_blocked_by_malformed_budget :
  Forall (fun b => covers b web = false) [dbOpen; malformed]
  /\ Outcome (PdbRule_Drainable (NewPdbRule (trackerOf [dbOpen; malformed])) web) = BlockDrain.
Proof. split; [repeat constructor | vm_compute; reflexivity]. Qed.

End PdbRuleSpec.

(** * Properties of the drain evaluator *)

Module DrainSpec.

Import drainability simulator.

Section WithCollaborators.
Context `{metav1.SelectorLib} `{!simulator.Collaborators}.

Implicit Types (dr : list Rule) (pod : apiv1.Pod)
  (podInfo k : schedulerframework.PodInfo)
  (pre post : list schedulerframework.PodInfo).

(** *** The rule chain *)

Lemma drainabilityStatus_cons_decisive pod f dr :
  Outcome (Drainable f pod) <> UndefinedOutcome ->
  drainabilityStatus pod (f :: dr) = Drainable f pod.
Proof. intros Hd. cbn. rewrite decide_True by exact Hd. reflexivity. Qed.

Lemma drainabilityStatus_cons_undefined pod f dr :
  Outcome (Drainable f pod) = UndefinedOutcome ->
  drainabilityStatus pod (f :: dr) = drainabilityStatus pod dr.
Proof. intros Hd. cbn. rewrite decide_False by (intros Hn; exact (Hn Hd)). reflexivity. Qed.

(** *** The classification of one pod *)

Lemma undecided_cons dr pod ps :
  undecided dr (pod :: ps) =
    if decide (Outcome (drainabilityStatus pod dr) = UndefinedOutcome)
    then pod :: undecided dr ps else undecided dr ps.
Proof. unfold undecided. rewrite filter_cons. reflexivity. Qed.

Lemma allowedMovable_cons dr pod ps :
  allowedMovable dr (pod :: ps) =
    if decide (Outcome (drainabilityStatus pod dr) = DrainOk ∧ IsDaemonSetPod pod = false)
    then pod :: allowedMovable dr ps else allowedMovable dr ps.
Proof. unfold allowedMovable. rewrite filter_cons. reflexivity. Qed.

Lemma allowedDaemons_cons dr pod ps :
  allowedDaemons dr (pod :: ps) =
    if decide (Outcome (drainabilityStatus pod dr) = DrainOk ∧ IsDaemonSetPod pod = true)
    then pod :: allowedDaemons dr ps else allowedDaemons dr ps.
Proof. unfold allowedDaemons. rewrite filter_cons. reflexivity. Qed.

(** Reading the three filters at a pod whose outcome is known. *)
Ltac classify_head :=
  rewrite undecided_cons, allowedMovable_cons, allowedDaemons_cons;
  repeat case_decide; try (exfalso; intuition congruence).

(** *** The loop *)

(** Past a prefix without block, the loop has appended to its three slices
    the undecided pods, the allowed pods and the allowed daemon-set pods of
    the prefix. *)
Lemma rangePods_app dr pre rest (a b c : list apiv1.Pod) :
  noBlock dr pre ->
  rangePods dr (pre ++ rest) a b c =
  rangePods dr rest (a ++ undecided dr (podsOf pre))
                    (b ++ allowedMovable dr (podsOf pre))
                    (c ++ allowedDaemons dr (podsOf pre)).
Proof.
  intros Hpre. revert a b c.
  induction Hpre as [|podInfo pre Hk _ IH]; intros a b c.
  - cbn. unfold undecided, allowedMovable, allowedDaemons. cbn.
    rewrite !app_nil_r. reflexivity.
  - cbn [app rangePods podsOf map].
    destruct (Outcome (drainabilityStatus (schedulerframework.Pod podInfo) dr)) eqn:E.
    + rewrite IH. classify_head. rewrite <- app_assoc. reflexivity.
    + destruct (IsDaemonSetPod (schedulerframework.Pod podInfo)) eqn:D;
        rewrite IH; classify_head; rewrite <- app_assoc; reflexivity.
    + contradiction.
Qed.

Lemma rangePods_finished dr podInfos :
  noBlock dr podInfos ->
  rangePods dr podInfos [] [] [] =
  Finished (undecided dr (podsOf podInfos))
           (allowedMovable dr (podsOf podInfos))
           (allowedDaemons dr (podsOf podInfos)).
Proof.
  intros Hno. rewrite <- (app_nil_r podInfos) at 1.
  rewrite rangePods_app by exact Hno. reflexivity.
Qed.

Lemma rangePods_blocked dr pre k post :
  firstBlock dr pre k ->
  rangePods dr (pre ++ k :: post) [] [] [] =
  Blocked (undecided dr (podsOf pre))
          {| drain.Pod := schedulerframework.Pod k;
             drain.Reason := BlockingReason (drainabilityStatus (schedulerframework.Pod k) dr) |}
          (Error (drainabilityStatus (schedulerframework.Pod k) dr)).
Proof.
  intros [Hpre Hk]. rewrite rangePods_app by exact Hpre.
  cbn. rewrite Hk. reflexivity.
Qed.

(** The result of [GetPodsToMove] when the chain blocks. *)
Lemma GetPodsToMove_blocked nodeInfo deleteOptions listers tracker timestamp pre k post :
  schedulerframework.Pods nodeInfo = pre ++ k :: post ->
  firstBlock (rulesInUse deleteOptions tracker) pre k ->
  GetPodsToMove nodeInfo deleteOptions listers tracker timestamp =
  {| pods := undecided (rulesInUse deleteOptions tracker) (podsOf pre);
     daemonSetPods := [];
     blockingPod :=
       Some {| drain.Pod := schedulerframework.Pod k;
               drain.Reason :=
                 BlockingReason (drainabilityStatus (schedulerframework.Pod k)
                                   (rulesInUse deleteOptions tracker)) |};
     err := Error (drainabilityStatus (schedulerframework.Pod k)
                     (rulesInUse deleteOptions tracker)) |}.
Proof.
  intros Hpods Hfirst. unfold GetPodsToMove.
  rewrite Hpods, (rangePods_blocked _ _ _ _ Hfirst). reflexivity.
Qed.

(** The result of [GetPodsToMove] when the chain blocks no pod. *)
Lemma GetPodsToMove_finished nodeInfo deleteOptions listers tracker timestamp lp ld bp e :
  noBlock (rulesInUse deleteOptions tracker) (schedulerframework.Pods nodeInfo) ->
  legacyCall nodeInfo deleteOptions listers tracker timestamp = (lp, ld, bp, e) ->
  GetPodsToMove nodeInfo deleteOptions listers tracker timestamp =
  {| pods := lp ++ allowedMovable (rulesInUse deleteOptions tracker)
                     (podsOf (schedulerframework.Pods nodeInfo));
     daemonSetPods := ld ++ allowedDaemons (rulesInUse deleteOptions tracker)
                              (podsOf (schedulerframework.Pods nodeInfo));
     blockingPod := match e with Some _ => bp | None => None end;
     err := e |}.
Proof.
  intros Hno Hlegacy. unfold GetPodsToMove.
  rewrite (rangePods_finished _ _ Hno).
  unfold legacyCall in Hlegacy. rewrite Hlegacy.
  destruct e; reflexivity.
Qed.

(** Either some pod is the first one the chain blocks, or none is blocked. *)
Lemma firstBlock_or_noBlock dr podInfos :
  noBlock dr podInfos \/
  exists pre k post, podInfos = pre ++ k :: post /\ firstBlock dr pre k.
Proof.
  induction podInfos as [|podInfo rest IH].
  - left. constructor.
  - destruct (decide (Outcome (drainabilityStatus (schedulerframework.Pod podInfo) dr) = BlockDrain))
      as [Hb|Hb].
    + right. exists [], podInfo, rest. repeat split; [constructor | exact Hb].
    + destruct IH as [Hno | (pre & k & post & -> & Hpre & Hk)].
      * left. constructor; assumption.
      * right. exists (podInfo :: pre), k, post. repeat split; [constructor; assumption | exact Hk].
Qed.

(** *** The claims on the rule chain and on the results *)

(** C4.  [drainabilityStatus] returns the status of the first rule of the
    list whose outcome on the pod is not undefined; when every rule of the
    list is undefined on the pod, it returns the status with the undefined
    outcome (and nothing else set). *)
Theorem drainabilityStatus_first_decisive pod dr :
  (exists before f after,
      dr = before ++ f :: after
      /\ Forall (fun g => Outcome (Drainable g pod) = UndefinedOutcome) before
      /\ Outcome (Drainable f pod) <> UndefinedOutcome
      /\ drainabilityStatus pod dr = Drainable f pod)
  \/ (Forall (fun g => Outcome (Drainable g pod) = UndefinedOutcome) dr
      /\ drainabilityStatus pod dr =
           {| Outcome := UndefinedOutcome; BlockingReason := drain.NoReason; Error := None |}).
Proof.
  induction dr as [|f dr IH].
  - right. split; [constructor | reflexivity].
  - destruct (decide (Outcome (Drainable f pod) = UndefinedOutcome)) as [Hu|Hd].
    + rewrite (drainabilityStatus_cons_undefined _ _ _ Hu).
      destruct IH as [(before & g & after & -> & Hbefore & Hg & Heq) | [Hall Heq]].
      * left. exists (f :: before), g, after.
        split; [reflexivity|]. split; [constructor; assumption|]. split; assumption.
      * right. split; [constructor; assumption | exact Heq].
    + left. exists [], f, dr.
      split; [reflexivity|]. split; [constructor|]. split; [exact Hd|].
      apply drainabilityStatus_cons_decisive, Hd.
Qed.

(** C2.  When the chain blocks the pod [k] of the node, and none before it,
    [GetPodsToMove] returns as movable pods exactly the pods before [k] that
    the chain left undecided, in their order, and no daemon-set pod; a pod
    before [k] that the chain allowed is in neither list. *)
Theorem GetPodsToMove_block_returns_undecided_prefix
    nodeInfo deleteOptions listers tracker timestamp pre k post :
  schedulerframework.Pods nodeInfo = pre ++ k :: post ->
  firstBlock (rulesInUse deleteOptions tracker) pre k ->
  pods (GetPodsToMove nodeInfo deleteOptions listers tracker timestamp)
    = filter (fun pod => Outcome (drainabilityStatus pod (rulesInUse deleteOptions tracker))
                         = UndefinedOutcome)
             (podsOf pre)
  /\ daemonSetPods (GetPodsToMove nodeInfo deleteOptions listers tracker timestamp) = []
  /\ forall pod,
       pod ∈ podsOf pre ->
       Outcome (drainabilityStatus pod (rulesInUse deleteOptions tracker)) = DrainOk ->
       (pod ∉ pods (GetPodsToMove nodeInfo deleteOptions listers tracker timestamp))
       /\ (pod ∉ daemonSetPods (GetPodsToMove nodeInfo deleteOptions listers tracker timestamp)).
Proof.
  intros Hpods Hfirst.
  rewrite (GetPodsToMove_blocked _ _ _ _ _ _ _ _ Hpods Hfirst). cbn [pods daemonSetPods].
  split; [reflexivity|]. split; [reflexivity|].
  intros pod _ Hok. split.
  - unfold undecided. rewrite list_elem_of_filter. intros [Hu _]. congruence.
  - apply not_elem_of_nil.
Qed.

(** C1 (as amended).  Suppose every blocked status the chain gives on a pod
    of the node carries an error, and the legacy check, as called here,
    returns a blocking pod whenever it returns an error.  Then
    [GetPodsToMove] returns either a blocking pod and an error, or neither.
    When the chain blocks the pod [k], every pod of the two returned lists
    is one of the pods before [k]; when the chain blocks no pod, the
    returned lists are those of the legacy check followed by the pods the
    chain allowed. *)
Theorem GetPodsToMove_block_and_error_together
    nodeInfo deleteOptions listers tracker timestamp :
  Forall (fun podInfo =>
            Outcome (drainabilityStatus (schedulerframework.Pod podInfo)
                       (rulesInUse deleteOptions tracker)) = BlockDrain ->
            Error (drainabilityStatus (schedulerframework.Pod podInfo)
                     (rulesInUse deleteOptions tracker)) <> None)
         (schedulerframework.Pods nodeInfo) ->
  (forall lp ld bp e,
      legacyCall nodeInfo deleteOptions listers tracker timestamp = (lp, ld, bp, Some e) ->
      bp <> None) ->
  ((blockingPod (GetPodsToMove nodeInfo deleteOptions listers tracker timestamp) <> None
    /\ err (GetPodsToMove nodeInfo deleteOptions listers tracker timestamp) <> None)
   \/ (blockingPod (GetPodsToMove nodeInfo deleteOptions listers tracker timestamp) = None
       /\ err (GetPodsToMove nodeInfo deleteOptions listers tracker timestamp) = None))
  /\ (forall pre k post,
        schedulerframework.Pods nodeInfo = pre ++ k :: post ->
        firstBlock (rulesInUse deleteOptions tracker) pre k ->
        forall pod,
          pod ∈ (pods (GetPodsToMove nodeInfo deleteOptions listers tracker timestamp)
                 ++ daemonSetPods (GetPodsToMove nodeInfo deleteOptions listers tracker timestamp)) ->
          pod ∈ podsOf pre)
  /\ (noBlock (rulesInUse deleteOptions tracker) (schedulerframework.Pods nodeInfo) ->
      forall lp ld bp e,
        legacyCall nodeInfo deleteOptions listers tracker timestamp = (lp, ld, bp, e) ->
        pods (GetPodsToMove nodeInfo deleteOptions listers tracker timestamp)
          = lp ++ allowedMovable (rulesInUse deleteOptions tracker)
                    (podsOf (schedulerframework.Pods nodeInfo))
        /\ daemonSetPods (GetPodsToMove nodeInfo deleteOptions listers tracker timestamp)
          = ld ++ allowedDaemons (rulesInUse deleteOptions tracker)
                    (podsOf (schedulerframework.Pods nodeInfo))).
Proof.
  intros Hcause Hlegacy. split; [|split].
  - destruct (firstBlock_or_noBlock (rulesInUse deleteOptions tracker)
                (schedulerframework.Pods nodeInfo))
      as [Hno | (pre & k & post & Hpods & Hfirst)].
    + destruct (legacyCall nodeInfo deleteOptions listers tracker timestamp)
        as [[[lp ld] bp] e] eqn:Hcall.
      rewrite (GetPodsToMove_finished _ _ _ _ _ _ _ _ _ Hno Hcall). cbn [blockingPod err].
      destruct e as [e|].
      * left. split; [exact (Hlegacy _ _ _ _ eq_refl) | discriminate].
      * right. split; reflexivity.
    + rewrite (GetPodsToMove_blocked _ _ _ _ _ _ _ _ Hpods Hfirst). cbn [blockingPod err].
      left. split; [discriminate|].
      rewrite Hpods in Hcause. apply Forall_app in Hcause as [_ Hcause].
      apply Forall_cons in Hcause as [Hk _]. apply Hk, Hfirst.
  - intros pre k post Hpods Hfirst pod.
    rewrite (GetPodsToMove_blocked _ _ _ _ _ _ _ _ Hpods Hfirst). cbn [pods daemonSetPods].
    rewrite app_nil_r. unfold undecided. rewrite list_elem_of_filter. intros [_ Hin]. exact Hin.
  - intros Hno lp ld bp e Hcall.
    rewrite (GetPodsToMove_finished _ _ _ _ _ _ _ _ _ Hno Hcall). split; reflexivity.
Qed.

(** C3 (as amended).  When the chain blocks no pod and leaves some pods
    undecided, and the legacy check returns an error, [GetPodsToMove]
    returns the blocking pod and the error of the legacy check, and the
    lists of the legacy check each followed by the pods the chain allowed:
    the movable ones and the daemon-set ones. *)
Theorem GetPodsToMove_legacy_error_after_merge
    nodeInfo deleteOptions listers tracker timestamp lp ld bp e :
  noBlock (rulesInUse deleteOptions tracker) (schedulerframework.Pods nodeInfo) ->
  undecided (rulesInUse deleteOptions tracker) (podsOf (schedulerframework.Pods nodeInfo)) <> [] ->
  legacyCall nodeInfo deleteOptions listers tracker timestamp = (lp, ld, bp, Some e) ->
  GetPodsToMove nodeInfo deleteOptions listers tracker timestamp =
  {| pods := lp ++ allowedMovable (rulesInUse deleteOptions tracker)
                     (podsOf (schedulerframework.Pods nodeInfo));
     daemonSetPods := ld ++ allowedDaemons (rulesInUse deleteOptions tracker)
                              (podsOf (schedulerframework.Pods nodeInfo));
     blockingPod := bp;
     err := Some e |}.
Proof.
  intros Hno _ Hcall.
  exact (GetPodsToMove_finished _ _ _ _ _ _ _ _ _ Hno Hcall).
Qed.

(** C10.  When the chain blocks no pod and the legacy check returns no
    error, [GetPodsToMove] returns the movable pods of the legacy check
    followed by the movable pods the chain allowed, the daemon-set pods of
    the legacy check followed by the daemon-set pods the chain allowed, no
    blocking pod and no error. *)
Theorem GetPodsToMove_merges_legacy_first
    nodeInfo deleteOptions listers tracker timestamp lp ld bp :
  noBlock (rulesInUse deleteOptions tracker) (schedulerframework.Pods nodeInfo) ->
  legacyCall nodeInfo deleteOptions listers tracker timestamp = (lp, ld, bp, None) ->
  GetPodsToMove nodeInfo deleteOptions listers tracker timestamp =
  {| pods := lp ++ allowedMovable (rulesInUse deleteOptions tracker)
                     (podsOf (schedulerframework.Pods nodeInfo));
     daemonSetPods := ld ++ allowedDaemons (rulesInUse deleteOptions tracker)
                              (podsOf (schedulerframework.Pods nodeInfo));
     blockingPod := None;
     err := None |}.
Proof.
  intros Hno Hcall.
  exact (GetPodsToMove_finished _ _ _ _ _ _ _ _ _ Hno Hcall).
Qed.

(** *** The log of rule evaluations *)

Lemma fst_bind {A B : Type} (m : evaluations.Logged A) (f : A -> evaluations.Logged B) :
  fst (evaluations.bind m f) = fst (f (fst m)).
Proof. unfold evaluations.bind. destruct m as [a l1]. cbn. destruct (f a). reflexivity. Qed.

Lemma snd_bind {A B : Type} (m : evaluations.Logged A) (f : A -> evaluations.Logged B) :
  snd (evaluations.bind m f) = snd m ++ snd (f (fst m)).
Proof. unfold evaluations.bind. destruct m as [a l1]. cbn. destruct (f a). reflexivity. Qed.

(** The logged chain computes what the chain computes. *)
Lemma logged_drainabilityStatus i pod j dr :
  fst (evaluations.drainabilityStatus i pod j dr) = drainabilityStatus pod dr.
Proof.
  revert j. induction dr as [|f dr IH]; intros j; [reflexivity|].
  cbn [evaluations.drainabilityStatus drainabilityStatus].
  rewrite fst_bind. cbn [evaluations.callDrainable fst].
  case_decide; [reflexivity | apply IH].
Qed.

(** Every evaluation the chain logs for a pod is an evaluation of that pod,
    at its position. *)
Lemma logged_drainabilityStatus_pod i pod j dr :
  Forall (fun ev => evaluations.atPod ev = i /\ evaluations.ofPod ev = pod)
         (snd (evaluations.drainabilityStatus i pod j dr)).
Proof.
  revert j. induction dr as [|f dr IH]; intros j; [constructor|].
  cbn [evaluations.drainabilityStatus].
  rewrite snd_bind. cbn [evaluations.callDrainable fst snd app].
  constructor; [split; reflexivity|].
  case_decide; [constructor | apply IH].
Qed.

(** The logged loop computes what the loop computes. *)
Lemma logged_rangePods dr i podInfos (a b c : list apiv1.Pod) :
  fst (evaluations.rangePods dr i podInfos a b c) = rangePods dr podInfos a b c.
Proof.
  revert i a b c. induction podInfos as [|podInfo rest IH]; intros i a b c; [reflexivity|].
  cbn [evaluations.rangePods rangePods].
  rewrite fst_bind, logged_drainabilityStatus.
  destruct (Outcome (drainabilityStatus (schedulerframework.Pod podInfo) dr));
    [apply IH | destruct (IsDaemonSetPod (schedulerframework.Pod podInfo)); apply IH | reflexivity].
Qed.

(** One turn of the logged loop: the evaluations of the head pod, then
    those of the rest of the loop, if the head pod is not blocked. *)
Lemma logged_rangePods_cons dr i podInfo rest (a b c : list apiv1.Pod) :
  exists a' b' c',
    snd (evaluations.rangePods dr i (podInfo :: rest) a b c) =
    snd (evaluations.drainabilityStatus i (schedulerframework.Pod podInfo) 0 dr)
    ++ (if decide (Outcome (drainabilityStatus (schedulerframework.Pod podInfo) dr) = BlockDrain)
        then []
        else snd (evaluations.rangePods dr (S i) rest a' b' c')).
Proof.
  cbn [evaluations.rangePods]. setoid_rewrite snd_bind.
  rewrite logged_drainabilityStatus.
  destruct (Outcome (drainabilityStatus (schedulerframework.Pod podInfo) dr)) eqn:E.
  - eexists _, _, _. rewrite decide_False by discriminate. reflexivity.
  - destruct (IsDaemonSetPod (schedulerframework.Pod podInfo));
      eexists _, _, _; rewrite decide_False by discriminate; reflexivity.
  - exists a, b, c. rewrite decide_True by reflexivity. reflexivity.
Qed.

(** Every logged evaluation is of a pod of the list, at its position. *)
Lemma logged_rangePods_positions dr i podInfos (a b c : list apiv1.Pod) :
  Forall (fun ev =>
            i <= evaluations.atPod ev
            /\ podInfos !! (evaluations.atPod ev - i)
               = Some {| schedulerframework.Pod := evaluations.ofPod ev |})
         (snd (evaluations.rangePods dr i podInfos a b c)).
Proof.
  revert i a b c. induction podInfos as [|podInfo rest IH]; intros i a b c; [constructor|].
  destruct (logged_rangePods_cons dr i podInfo rest a b c) as (a' & b' & c' & ->).
  apply Forall_app. split.
  - eapply Forall_impl; [apply logged_drainabilityStatus_pod|].
    intros ev [-> Hof]. split; [lia|].
    replace (i - i) with 0 by lia. rewrite Hof. destruct podInfo. reflexivity.
  - case_decide; [constructor|].
    eapply Forall_impl; [apply IH|].
    intros ev [Hle Hlook]. split; [lia|].
    replace (evaluations.atPod ev - i) with (S (evaluations.atPod ev - S i)) by lia.
    exact Hlook.
Qed.

(** The log goes through the pods in the order of the list. *)
Lemma logged_rangePods_sorted dr i podInfos (a b c : list apiv1.Pod) :
  StronglySorted le (map evaluations.atPod (snd (evaluations.rangePods dr i podInfos a b c))).
Proof.
  revert i a b c. induction podInfos as [|podInfo rest IH]; intros i a b c; [constructor|].
  destruct (logged_rangePods_cons dr i podInfo rest a b c) as (a' & b' & c' & ->).
  pose proof (logged_drainabilityStatus_pod i (schedulerframework.Pod podInfo) 0 dr) as Hhead.
  rewrite map_app. apply StronglySorted_app_2.
  - intros x1 x2 H1 H2.
    apply list_elem_of_fmap in H1 as (e1 & -> & H1).
    apply list_elem_of_fmap in H2 as (e2 & -> & H2).
    rewrite Forall_forall in Hhead. destruct (Hhead _ H1) as [-> _].
    case_decide; [inversion H2|].
    pose proof (logged_rangePods_positions dr (S i) rest a' b' c') as Hrest.
    rewrite Forall_forall in Hrest. destruct (Hrest _ H2) as [Hle _]. lia.
  - induction Hhead as [|e l [He _] Hl IHl]; [constructor|].
    cbn [map]. constructor; [exact IHl|].
    apply Forall_fmap. eapply Forall_impl; [exact Hl|].
    intros ev [Hev _]. unfold compose. lia.
  - case_decide; [constructor | apply IH].
Qed.

(** Nothing is logged for the pods that follow a blocked pod. *)
Lemma logged_rangePods_stop dr i pre k post (a b c : list apiv1.Pod) :
  Outcome (drainabilityStatus (schedulerframework.Pod k) dr) = BlockDrain ->
  snd (evaluations.rangePods dr i (pre ++ k :: post) a b c) =
  snd (evaluations.rangePods dr i (pre ++ [k]) a b c).
Proof.
  intros Hk. revert i a b c. induction pre as [|podInfo pre IH]; intros i a b c.
  - cbn [app evaluations.rangePods]. rewrite !snd_bind, logged_drainabilityStatus, Hk.
    reflexivity.
  - cbn [app evaluations.rangePods]. rewrite !snd_bind, logged_drainabilityStatus.
    f_equal.
    destruct (Outcome (drainabilityStatus (schedulerframework.Pod podInfo) dr));
      [apply IH | destruct (IsDaemonSetPod (schedulerframework.Pod podInfo)); apply IH | reflexivity].
Qed.

(** C9.  [GetPodsToMove] evaluates the rules on the pods in the order of
    [nodeInfo.Pods].  When the chain blocks the pod [k] and none before it,
    the blocking pod returned is [k] with the reason of its status, the
    error returned is the error of that status, and no rule is evaluated on
    a pod after [k]: every logged evaluation is of a pod at a position up to
    that of [k], and the log is the one of the node cut after [k]. *)
Theorem GetPodsToMove_stops_at_first_block
    nodeInfo deleteOptions listers tracker timestamp pre k post :
  schedulerframework.Pods nodeInfo = pre ++ k :: post ->
  firstBlock (rulesInUse deleteOptions tracker) pre k ->
  blockingPod (GetPodsToMove nodeInfo deleteOptions listers tracker timestamp)
    = Some {| drain.Pod := schedulerframework.Pod k;
              drain.Reason :=
                BlockingReason (drainabilityStatus (schedulerframework.Pod k)
                                  (rulesInUse deleteOptions tracker)) |}
  /\ err (GetPodsToMove nodeInfo deleteOptions listers tracker timestamp)
    = Error (drainabilityStatus (schedulerframework.Pod k) (rulesInUse deleteOptions tracker))
  /\ fst (evaluations.rangePods (rulesInUse deleteOptions tracker) 0
            (schedulerframework.Pods nodeInfo) [] [] [])
    = rangePods (rulesInUse deleteOptions tracker) (schedulerframework.Pods nodeInfo) [] [] []
  /\ StronglySorted le
       (map evaluations.atPod (evaluations.GetPodsToMove_log nodeInfo deleteOptions tracker))
  /\ Forall (fun ev =>
              evaluations.atPod ev <= length pre
              /\ schedulerframework.Pods nodeInfo !! evaluations.atPod ev
                 = Some {| schedulerframework.Pod := evaluations.ofPod ev |})
            (evaluations.GetPodsToMove_log nodeInfo deleteOptions tracker)
  /\ evaluations.GetPodsToMove_log nodeInfo deleteOptions tracker
    = evaluations.GetPodsToMove_log {| schedulerframework.Pods := pre ++ [k] |}
        deleteOptions tracker.
Proof.
  intros Hpods Hfirst.
  rewrite (GetPodsToMove_blocked _ _ _ _ _ _ _ _ Hpods Hfirst). cbn [blockingPod err].
  split; [reflexivity|]. split; [reflexivity|].
  split; [apply logged_rangePods|].
  split; [apply logged_rangePods_sorted|].
  assert (Hcut : evaluations.GetPodsToMove_log nodeInfo deleteOptions tracker
                 = evaluations.GetPodsToMove_log {| schedulerframework.Pods := pre ++ [k] |}
                     deleteOptions tracker).
  { unfold evaluations.GetPodsToMove_log. cbn [schedulerframework.Pods]. rewrite Hpods.
    apply logged_rangePods_stop, Hfirst. }
  split; [|exact Hcut].
  pose proof (logged_rangePods_positions (rulesInUse deleteOptions tracker) 0
                (schedulerframework.Pods nodeInfo) [] [] []) as Hall.
  pose proof (logged_rangePods_positions (rulesInUse deleteOptions tracker) 0
                (pre ++ [k]) [] [] []) as Hcutpos.
  rewrite Forall_forall in Hall, Hcutpos. apply Forall_forall. intros ev Hev.
  split.
  - rewrite Hcut in Hev. destruct (Hcutpos ev Hev) as [_ Hlook].
    apply lookup_lt_Some in Hlook. rewrite length_app in Hlook. cbn in Hlook. lia.
  - destruct (Hall ev Hev) as [_ Hlook].
    replace (evaluations.atPod ev - 0) with (evaluations.atPod ev) in Hlook by lia.
    exact Hlook.
Qed.

End WithCollaborators.

(** ** The properties on the scenarios *)

Import scenarios.

(** The chain is sensitive to the order of its rules: two rules that
    disagree on [db]. *)
Example drainabilityStatus_order :
  Outcome (drainabilityStatus db [blockDbSilently; {| Drainable := fun _ => {| Outcome := DrainOk; BlockingReason := drain.NoReason; Error := None |} |}]) = BlockDrain
  /\ Outcome (drainabilityStatus db [{| Drainable := fun _ => {| Outcome := DrainOk; BlockingReason := drain.NoReason; Error := None |} |}; blockDbSilently]) = DrainOk.
Proof. split; reflexivity. Qed.

(** A node with one allowed daemon-set pod. *)
Example GetPodsToMove_one_daemon :
  GetPodsToMove (nodeOf [logger]) (optionsWith (Some [allowSystem])) None None now
  = {| pods := []; daemonSetPods := [logger]; blockingPod := None; err := None |}.
Proof. vm_compute. reflexivity. Qed.

(** No rules in the options, one budget with a disruption left that covers
    the only pod. *)
Example GetPodsToMove_default_rules :
  GetPodsToMove (nodeOf [web]) (optionsWith None) None (trackerOf [webOpen]) now
  = {| pods := [web]; daemonSetPods := []; blockingPod := None; err := None |}.
Proof. vm_compute. reflexivity. Qed.

Lemma GetPodsToMove_block_returns_undecided_prefix_witness :
  pods (GetPodsToMove (nodeOf [logger; bare; db; web])
          (optionsWith (Some [allowSystem; blockDbSilently])) None None now)
    = filter (fun pod => Outcome (drainabilityStatus pod [allowSystem; blockDbSilently])
                         = UndefinedOutcome)
             [logger; bare]
  /\ daemonSetPods (GetPodsToMove (nodeOf [logger; bare; db; web])
                      (optionsWith (Some [allowSystem; blockDbSilently])) None None now) = []
  /\ forall pod,
       pod ∈ [logger; bare] ->
       Outcome (drainabilityStatus pod [allowSystem; blockDbSilently]) = DrainOk ->
       (pod ∉ pods (GetPodsToMove (nodeOf [logger; bare; db; web])
                     (optionsWith (Some [allowSystem; blockDbSilently])) None None now))
       /\ (pod ∉ daemonSetPods (GetPodsToMove (nodeOf [logger; bare; db; web])
                               (optionsWith (Some [allowSystem; blockDbSilently])) None None now)).
Proof.
  apply (GetPodsToMove_block_returns_undecided_prefix
           (nodeOf [logger; bare; db; web])
           (optionsWith (Some [allowSystem; blockDbSilently])) None None now
           [infoOf logger; infoOf bare] (infoOf db) [infoOf web]).
  - reflexivity.
  - split; [repeat constructor; vm_compute; discriminate | vm_compute; reflexivity].
Defined.

Lemma GetPodsToMove_block_and_error_together_witness :
  blockingPod (GetPodsToMove (nodeOf [logger; bare; web; db]) (optionsWith None) None
                 (trackerOf [webExhausted]) now) <> None
  /\ err (GetPodsToMove (nodeOf [logger; bare; web; db]) (optionsWith None) None
            (trackerOf [webExhausted]) now) <> None.
Proof.
  destruct (GetPodsToMove_block_and_error_together
              (nodeOf [logger; bare; web; db]) (optionsWith None) None
              (trackerOf [webExhausted]) now) as [[Hboth | [Hnone _]] _].
  - repeat constructor; vm_compute; congruence.
  - intros lp ld bp e Hcall. vm_compute in Hcall. congruence.
  - exact Hboth.
  - vm_compute in Hnone. discriminate.
Defined.

(** C1 as stated fails: the only rule blocks [db] with a status that has no
    error, and [GetPodsToMove] returns a blocking pod without an error. *)
Lemma block_without_error :
  blockingPod (GetPodsToMove (nodeOf [db]) (optionsWith (Some [blockDbSilently])) None None now)
    = Some {| drain.Pod := db; drain.Reason := drain.UnexpectedError |}
  /\ blockingPod (GetPodsToMove (nodeOf [db]) (optionsWith (Some [blockDbSilently])) None None now)
     <> None
  /\ err (GetPodsToMove (nodeOf [db]) (optionsWith (Some [blockDbSilently])) None None now) = None.
Proof. vm_compute. repeat split. discriminate. Qed.

Lemma GetPodsToMove_legacy_error_after_merge_witness :
  GetPodsToMove (nodeOf [web; logger; bare]) (optionsWith (Some [allowSystem])) None None now
  = {| pods := [] ++ allowedMovable [allowSystem] [web; logger; bare];
       daemonSetPods := [] ++ allowedDaemons [allowSystem] [web; logger; bare];
       blockingPod := Some {| drain.Pod := bare; drain.Reason := drain.NotReplicated |};
       err := Some "default/bare is not replicated"%string |}.
Proof.
  apply (GetPodsToMove_legacy_error_after_merge
           (nodeOf [web; logger; bare]) (optionsWith (Some [allowSystem])) None None now).
  - repeat constructor; vm_compute; discriminate.
  - vm_compute. discriminate.
  - vm_compute. reflexivity.
Defined.

(** C3 as stated fails: the chain leaves [bare] undecided and allows
    [logger]; the legacy check fails on [bare] and returns empty lists; yet
    the daemon-set list returned holds [logger], which only the chain
    classified. *)
Lemma legacy_error_returned_with_chain_pods :
  undecided [allowSystem] [logger; bare] = [bare]
  /\ legacyCall (nodeOf [logger; bare]) (optionsWith (Some [allowSystem])) None None now
     = ([], [], Some {| drain.Pod := bare; drain.Reason := drain.NotReplicated |},
        Some "default/bare is not replicated"%string)
  /\ GetPodsToMove (nodeOf [logger; bare]) (optionsWith (Some [allowSystem])) None None now
     = {| pods := [];
          daemonSetPods := [logger];
          blockingPod := Some {| drain.Pod := bare; drain.Reason := drain.NotReplicated |};
          err := Some "default/bare is not replicated"%string |}
  /\ daemonSetPods
       (GetPodsToMove (nodeOf [logger; bare]) (optionsWith (Some [allowSystem])) None None now)
     <> [].
Proof. vm_compute. repeat split. discriminate. Qed.

Lemma GetPodsToMove_merges_legacy_first_witness :
  GetPodsToMove (nodeOf [web; logger; db]) (optionsWith (Some [allowSystem])) None None now
  = {| pods := [db] ++ allowedMovable [allowSystem] [web; logger; db];
       daemonSetPods := [] ++ allowedDaemons [allowSystem] [web; logger; db];
       blockingPod := None;
       err := None |}.
Proof.
  apply (GetPodsToMove_merges_legacy_first
           (nodeOf [web; logger; db]) (optionsWith (Some [allowSystem])) None None now
           [db] [] None).
  - repeat constructor; vm_compute; discriminate.
  - vm_compute. reflexivity.
Defined.

Lemma GetPodsToMove_stops_at_first_block_witness :
  blockingPod (GetPodsToMove (nodeOf [logger; bare; db; web])
                 (optionsWith (Some [allowSystem; PdbRule_Rule (NewPdbRule (trackerOf [dbExhausted]))]))
                 None None now)
    = Some {| drain.Pod := db; drain.Reason := drain.NotEnoughPdb |}
  /\ err (GetPodsToMove (nodeOf [logger; bare; db; web])
            (optionsWith (Some [allowSystem; PdbRule_Rule (NewPdbRule (trackerOf [dbExhausted]))]))
            None None now)
    = Some "not enough pod disruption budget to move default/db-0"%string
  /\ map evaluations.atPod
       (evaluations.GetPodsToMove_log (nodeOf [logger; bare; db; web])
          (optionsWith (Some [allowSystem; PdbRule_Rule (NewPdbRule (trackerOf [dbExhausted]))]))
          None)
    = [0; 1; 1; 2; 2].
Proof.
  pose proof (GetPodsToMove_stops_at_first_block
                (nodeOf [logger; bare; db; web])
                (optionsWith (Some [allowSystem; PdbRule_Rule (NewPdbRule (trackerOf [dbExhausted]))]))
                None None now
                [infoOf logger; infoOf bare] (infoOf db) [infoOf web]) as Hstop.
  destruct Hstop as (Hbp & Herr & _).
  - reflexivity.
  - split; [repeat constructor; vm_compute; discriminate | vm_compute; reflexivity].
  - split; [exact Hbp|]. split; [exact Herr|]. vm_compute. reflexivity.
Defined.

End DrainSpec.

(** * Further properties of the disruption-budget rule *)

Module PdbRuleFacts.

Import drainability.

Section WithSelectors.
Context `{metav1.SelectorLib}.

Implicit Types (pod : apiv1.Pod) (b : policyv1.PodDisruptionBudget)
  (pdbs : list policyv1.PodDisruptionBudget).

Lemma rangePdbs_stops pod b pdbs :
  stops b pod = true -> rangePdbs pod (b :: pdbs) = verdictOf b pod.
Proof.
  unfold stops, verdictOf. destruct (parses b) eqn:Hp; cbn.
  - intros He. apply PdbRuleSpec.rangePdbs_exhausted, He.
  - intros _. apply PdbRuleSpec.rangePdbs_malformed, Hp.
Qed.

Lemma rangePdbs_passes pod b pdbs :
  stops b pod = false -> rangePdbs pod (b :: pdbs) = rangePdbs pod pdbs.
Proof.
  unfold stops. intros Hs. apply orb_false_iff in Hs as [Hp He].
  apply negb_false_iff in Hp. apply PdbRuleSpec.rangePdbs_continue; assumption.
Qed.

Lemma verdictOf_blocks b pod : Outcome (verdictOf b pod) = BlockDrain.
Proof. unfold verdictOf. destruct (parses b); reflexivity. Qed.

Lemma rangePdbs_first_stop pod pdbs :
  rangePdbs pod pdbs =
  match filter (fun b => stops b pod = true) pdbs with
  | [] => NewUndefinedStatus
  | b :: _ => verdictOf b pod
  end.
Proof.
  induction pdbs as [|b pdbs IH]; [reflexivity|].
  rewrite filter_cons. destruct (stops b pod) eqn:Hs.
  - rewrite decide_True by reflexivity. apply rangePdbs_stops, Hs.
  - rewrite decide_False by discriminate. rewrite rangePdbs_passes by exact Hs. exact IH.
Qed.

Lemma rangePdbs_app pod pdbs more :
  rangePdbs pod (pdbs ++ more) =
  if decide (Outcome (rangePdbs pod pdbs) = BlockDrain)
  then rangePdbs pod pdbs else rangePdbs pod more.
Proof.
  induction pdbs as [|b pdbs IH]; cbn [app].
  - rewrite decide_False by discriminate. reflexivity.
  - destruct (stops b pod) eqn:Hs.
    + rewrite !rangePdbs_stops by exact Hs.
      rewrite decide_True by apply verdictOf_blocks. reflexivity.
    + rewrite !rangePdbs_passes by exact Hs. exact IH.
Qed.

Lemma rangePdbs_blocks_iff pod pdbs :
  Outcome (rangePdbs pod pdbs) = BlockDrain <-> Exists (fun b => stops b pod = true) pdbs.
Proof.
  induction pdbs as [|b pdbs IH].
  - cbn. split; [discriminate | intros Hex; inversion Hex].
  - destruct (stops b pod) eqn:Hs.
    + rewrite rangePdbs_stops by exact Hs. split.
      * intros _. left. exact Hs.
      * intros _. apply verdictOf_blocks.
    + rewrite rangePdbs_passes by exact Hs. rewrite IH. split.
      * intros Hex. right. exact Hex.
      * intros Hex. apply Exists_cons in Hex as [Hb|Hex]; [congruence | exact Hex].
Qed.

Lemma stops_same_labels b pod pod' :
  apiv1.Namespace pod = apiv1.Namespace pod' ->
  apiv1.Labels pod = apiv1.Labels pod' ->
  stops b pod = stops b pod'.
Proof.
  intros Hn Hl. unfold stops, exhausts, covers. rewrite Hn, Hl. reflexivity.
Qed.

Lemma PdbRule_status_cases (r : PdbRule) pod :
  PdbRule_Drainable r pod = NewUndefinedStatus
  \/ PdbRule_Drainable r pod
     = NewBlockedStatus drain.UnexpectedError (Some errConvertSelector)
  \/ PdbRule_Drainable r pod
     = NewBlockedStatus drain.NotEnoughPdb (Some (errNotEnoughPdb pod)).
Proof.
  unfold PdbRule_Drainable. destruct (tracker r) as [t|]; [|left; reflexivity].
  rewrite rangePdbs_first_stop.
  destruct (filter _ _) as [|b ?]; [left; reflexivity|].
  unfold verdictOf. destruct (parses b); auto.
Qed.

Lemma PdbRule_never_allows (r : PdbRule) pod :
  Outcome (PdbRule_Drainable r pod) <> DrainOk
  /\ (Outcome (PdbRule_Drainable r pod) = BlockDrain -> Error (PdbRule_Drainable r pod) <> None).
Proof.
  destruct (PdbRule_status_cases r pod) as [-> | [-> | ->]]; split; cbn; congruence.
Qed.

(** X1.  [PdbRule.Drainable] only vetoes: its status is the undefined one,
    or a block for [UnexpectedError] with the error "failed to convert label
    selector", or a block for [NotEnoughPdb] with the error naming the pod.
    It is never [DrainOk], and a block always carries an error. *)
Theorem PdbRule_Drainable_vetoes_only (r : PdbRule) pod :
  (PdbRule_Drainable r pod = NewUndefinedStatus
   \/ PdbRule_Drainable r pod
      = NewBlockedStatus drain.UnexpectedError (Some "failed to convert label selector"%string)
   \/ PdbRule_Drainable r pod
      = NewBlockedStatus drain.NotEnoughPdb
          (Some ("not enough pod disruption budget to move "
                 +:+ apiv1.Namespace pod +:+ "/" +:+ apiv1.Name pod)%string))
  /\ Outcome (PdbRule_Drainable r pod) <> DrainOk
  /\ (Outcome (PdbRule_Drainable r pod) = BlockDrain -> Error (PdbRule_Drainable r pod) <> None).
Proof.
  split; [exact (PdbRule_status_cases r pod) | exact (PdbRule_never_allows r pod)].
Qed.

(** X2.  [PdbRule.Drainable] blocks the pod exactly when some budget of the
    snapshot has a selector that does not convert, or covers the pod with
    fewer than one disruption left. *)
Theorem PdbRule_Drainable_blocks_iff (r : PdbRule) pod :
  Outcome (PdbRule_Drainable r pod) = BlockDrain
  <-> Exists (fun b => parses b = false \/ exhausts b pod = true)
             (simulator.pdbsOf (tracker r)).
Proof.
  assert (Hstops : forall b, stops b pod = true <-> parses b = false \/ exhausts b pod = true).
  { intros b. unfold stops. rewrite orb_true_iff, negb_true_iff. reflexivity. }
  unfold PdbRule_Drainable. destruct (tracker r) as [t|]; cbn [simulator.pdbsOf].
  - rewrite rangePdbs_blocks_iff, !Exists_exists.
    split; intros (b & Hin & Hb); exists b; (split; [exact Hin | apply Hstops, Hb]).
  - cbn. split; [discriminate | intros Hex; inversion Hex].
Qed.

(** X3.  The status is decided by the first budget, in snapshot order, that
    has a selector that does not convert or that covers the pod with fewer
    than one disruption left: [NotEnoughPdb] if its selector converts,
    [UnexpectedError] if not, undefined if there is no such budget.  All
    other budgets are without effect. *)
Theorem PdbRule_Drainable_first_stop (t : pdb.RemainingPdbTracker) pod :
  PdbRule_Drainable (NewPdbRule (Some t)) pod =
  match filter (fun b => stops b pod = true) (pdb.GetPdbs t) with
  | [] => NewUndefinedStatus
  | b :: _ =>
      if parses b
      then NewBlockedStatus drain.NotEnoughPdb (Some (errNotEnoughPdb pod))
      else NewBlockedStatus drain.UnexpectedError (Some errConvertSelector)
  end.
Proof. unfold PdbRule_Drainable; cbn [tracker NewPdbRule]. apply rangePdbs_first_stop. Qed.

(** X4.  Budgets added at the end of the snapshot never lift a block: on
    the snapshot [pdbs ++ more] the rule returns its status on [pdbs] when
    that is a block, and its status on [more] otherwise. *)
Theorem PdbRule_Drainable_app pdbs more pod :
  PdbRule_Drainable (NewPdbRule (Some {| pdb.GetPdbs := pdbs ++ more |})) pod =
  if decide (Outcome (PdbRule_Drainable (NewPdbRule (Some {| pdb.GetPdbs := pdbs |})) pod)
             = BlockDrain)
  then PdbRule_Drainable (NewPdbRule (Some {| pdb.GetPdbs := pdbs |})) pod
  else PdbRule_Drainable (NewPdbRule (Some {| pdb.GetPdbs := more |})) pod.
Proof. unfold PdbRule_Drainable; cbn [tracker NewPdbRule pdb.GetPdbs]. apply rangePdbs_app. Qed.

(** X5.  The rule of package [rules/pdb], on a drain context, returns the
    status [PdbRule.Drainable] returns with a tracker that has the budgets
    of the context. *)
Theorem rules_pdb_Drainable_agrees (rule : rules_pdb.Rule) (drainCtx : context.DrainContext) pod :
  rules_pdb.Drainable rule drainCtx pod
  = PdbRule_Drainable (NewPdbRule (Some {| pdb.GetPdbs := context.Pdbs drainCtx |})) pod.
Proof.
  unfold rules_pdb.Drainable, PdbRule_Drainable; cbn [tracker NewPdbRule pdb.GetPdbs].
  apply PdbRuleSpec.rules_pdb_rangePdbs.
Qed.

(** X6.  The verdict depends on the pod only through its namespace and
    labels: two pods that agree on these get the same outcome and the same
    reason (the error of a [NotEnoughPdb] block names the pod, so it may
    differ). *)
Theorem PdbRule_Drainable_namespace_and_labels (r : PdbRule) pod pod' :
  apiv1.Namespace pod = apiv1.Namespace pod' ->
  apiv1.Labels pod = apiv1.Labels pod' ->
  Outcome (PdbRule_Drainable r pod) = Outcome (PdbRule_Drainable r pod')
  /\ BlockingReason (PdbRule_Drainable r pod) = BlockingReason (PdbRule_Drainable r pod').
Proof.
  intros Hn Hl. unfold PdbRule_Drainable. destruct (tracker r) as [t|]; [|split; reflexivity].
  rewrite !rangePdbs_first_stop.
  rewrite (list_filter_iff (fun b => stops b pod = true) (fun b => stops b pod' = true))
    by (intros b; rewrite (stops_same_labels b pod pod' Hn Hl); reflexivity).
  destruct (filter _ _) as [|b ?]; [split; reflexivity|].
  unfold verdictOf. destruct (parses b); split; reflexivity.
Qed.

End WithSelectors.

Import scenarios.

Lemma PdbRule_Drainable_namespace_and_labels_witness :
  Outcome (PdbRule_Drainable (NewPdbRule (trackerOf [dbOpen; webExhausted])) web)
  = Outcome (PdbRule_Drainable (NewPdbRule (trackerOf [dbOpen; webExhausted])) webTwin)
  /\ BlockingReason (PdbRule_Drainable (NewPdbRule (trackerOf [dbOpen; webExhausted])) web)
    = BlockingReason (PdbRule_Drainable (NewPdbRule (trackerOf [dbOpen; webExhausted])) webTwin).
Proof.
  apply (PdbRule_Drainable_namespace_and_labels
           (NewPdbRule (trackerOf [dbOpen; webExhausted])) web webTwin).
  - reflexivity.
  - reflexivity.
Defined.

End PdbRuleFacts.

(** * Further properties of the drain evaluator *)

Module DrainFacts.

Import drainability simulator.

Section WithCollaborators.
Context `{metav1.SelectorLib} `{!simulator.Collaborators}.

Implicit Types (dr : list Rule) (pod : apiv1.Pod)
  (podInfo k : schedulerframework.PodInfo)
  (podInfos pre post : list schedulerframework.PodInfo).

(** *** The rule chain *)

(** X7.  A chain made of two lists of rules returns the status of the first
    list when that is decisive, and the status of the second list
    otherwise. *)
Theorem drainabilityStatus_app pod dr1 dr2 :
  drainabilityStatus pod (dr1 ++ dr2) =
  if decide (Outcome (drainabilityStatus pod dr1) ≠ UndefinedOutcome)
  then drainabilityStatus pod dr1
  else drainabilityStatus pod dr2.
Proof.
  induction dr1 as [|f dr1 IH]; cbn [app].
  - cbn. rewrite decide_False by (intros Hn; apply Hn; reflexivity). reflexivity.
  - destruct (decide (Outcome (Drainable f pod) = UndefinedOutcome)) as [Hu|Hd].
    + rewrite !(DrainSpec.drainabilityStatus_cons_undefined _ _ _ Hu). exact IH.
    + rewrite !(DrainSpec.drainabilityStatus_cons_decisive _ _ _ Hd).
      rewrite decide_True by exact Hd. reflexivity.
Qed.

Lemma pdb_chain_never_allows pod dr :
  Forall (fun f => exists r, f = PdbRule_Rule r) dr ->
  Outcome (drainabilityStatus pod dr) <> DrainOk
  /\ (Outcome (drainabilityStatus pod dr) = BlockDrain
      -> Error (drainabilityStatus pod dr) <> None).
Proof.
  induction 1 as [|f dr [r ->] _ IH]; [split; cbn; congruence|].
  destruct (decide (Outcome (Drainable (PdbRule_Rule r) pod) = UndefinedOutcome)) as [Hu|Hd].
  - rewrite (DrainSpec.drainabilityStatus_cons_undefined _ _ _ Hu). exact IH.
  - rewrite (DrainSpec.drainabilityStatus_cons_decisive _ _ _ Hd).
    exact (PdbRuleFacts.PdbRule_never_allows r pod).
Qed.

(** X8.  A chain that consists of disruption-budget rules only never allows
    a pod, and when it blocks a pod its status carries an error. *)
Theorem drainabilityStatus_pdb_rules_only pod dr :
  Forall (fun f => exists r, f = PdbRule_Rule r) dr ->
  Outcome (drainabilityStatus pod dr) <> DrainOk
  /\ (Outcome (drainabilityStatus pod dr) = BlockDrain
      -> Error (drainabilityStatus pod dr) <> None).
Proof. apply pdb_chain_never_allows. Qed.

(** *** The loop *)

Lemma noBlock_not_Exists dr podInfos :
  noBlock dr podInfos <->
  ¬ Exists (fun podInfo =>
              Outcome (drainabilityStatus (schedulerframework.Pod podInfo) dr) = BlockDrain)
           podInfos.
Proof.
  unfold noBlock. rewrite Forall_forall, Exists_exists. split.
  - intros Hall (x & Hin & Hx). exact (Hall x Hin Hx).
  - intros Hno x Hin Hx. apply Hno. exists x. split; assumption.
Qed.

Lemma firstBlock_Exists dr pre k post :
  firstBlock dr pre k ->
  Exists (fun podInfo =>
            Outcome (drainabilityStatus (schedulerframework.Pod podInfo) dr) = BlockDrain)
         (pre ++ k :: post).
Proof. intros [_ Hk]. apply Exists_app. right. left. exact Hk. Qed.




(** X10.  The loop returns early exactly when the chain blocks some pod of
    the node. *)
Theorem rangePods_Blocked_iff dr podInfos :
  (exists ps bp e, rangePods dr podInfos [] [] [] = Blocked ps bp e)
  <-> Exists (fun podInfo =>
                Outcome (drainabilityStatus (schedulerframework.Pod podInfo) dr) = BlockDrain)
             podInfos.
Proof.
  split.
  - intros (ps & bp & e & Hb).
    destruct (DrainSpec.firstBlock_or_noBlock dr podInfos)
      as [Hno | (pre & k & post & -> & Hfirst)].
    + rewrite (DrainSpec.rangePods_finished _ _ Hno) in Hb. discriminate.
    + eapply firstBlock_Exists, Hfirst.
  - intros Hex.
    destruct (DrainSpec.firstBlock_or_noBlock dr podInfos)
      as [Hno | (pre & k & post & -> & Hfirst)].
    + apply noBlock_not_Exists in Hno. contradiction.
    + eexists _, _, _. apply DrainSpec.rangePods_blocked, Hfirst.
Qed.

(** *** The results *)

Lemma GetPodsToMove_block_same_rules
    nodeInfo deleteOptions deleteOptions' listers listers' tracker tracker' timestamp timestamp' :
  rulesInUse deleteOptions tracker = rulesInUse deleteOptions' tracker' ->
  Exists (fun podInfo =>
            Outcome (drainabilityStatus (schedulerframework.Pod podInfo)
                       (rulesInUse deleteOptions tracker)) = BlockDrain)
         (schedulerframework.Pods nodeInfo) ->
  GetPodsToMove nodeInfo deleteOptions listers tracker timestamp
  = GetPodsToMove nodeInfo deleteOptions' listers' tracker' timestamp'.
Proof.
  intros Hrules Hex.
  destruct (DrainSpec.firstBlock_or_noBlock (rulesInUse deleteOptions tracker)
              (schedulerframework.Pods nodeInfo))
    as [Hno | (pre & k & post & Hpods & Hfirst)].
  - apply noBlock_not_Exists in Hno. contradiction.
  - rewrite (DrainSpec.GetPodsToMove_blocked _ _ listers _ timestamp _ _ _ Hpods Hfirst).
    rewrite Hrules in Hfirst |- *.
    rewrite (DrainSpec.GetPodsToMove_blocked _ _ listers' _ timestamp' _ _ _ Hpods Hfirst).
    reflexivity.
Qed.

(** X11.  When the chain blocks some pod of the node, the result does not
    depend on the skip flags, the minimum replica count, the listers, the
    timestamp or the budgets of the tracker: two calls on the node that use
    the same rules return the same result. *)
Theorem GetPodsToMove_block_ignores_legacy_inputs
    nodeInfo deleteOptions deleteOptions' listers listers' tracker tracker' timestamp timestamp' :
  rulesInUse deleteOptions tracker = rulesInUse deleteOptions' tracker' ->
  Exists (fun podInfo =>
            Outcome (drainabilityStatus (schedulerframework.Pod podInfo)
                       (rulesInUse deleteOptions tracker)) = BlockDrain)
         (schedulerframework.Pods nodeInfo) ->
  GetPodsToMove nodeInfo deleteOptions listers tracker timestamp
  = GetPodsToMove nodeInfo deleteOptions' listers' tracker' timestamp'.
Proof. apply GetPodsToMove_block_same_rules. Qed.

Lemma undecided_all dr (ps : list apiv1.Pod) :
  Forall (fun pod => Outcome (drainabilityStatus pod dr) = UndefinedOutcome) ps ->
  undecided dr ps = ps
  /\ allowedMovable dr ps = []
  /\ allowedDaemons dr ps = [].
Proof.
  induction 1 as [|pod ps Hpod _ (IH1 & IH2 & IH3)]; [repeat split|].
  rewrite DrainSpec.undecided_cons, DrainSpec.allowedMovable_cons, DrainSpec.allowedDaemons_cons.
  rewrite decide_True by exact Hpod.
  rewrite !decide_False by (intros [? _]; congruence).
  rewrite IH1, IH2, IH3. repeat split.
Qed.

Lemma GetPodsToMove_all_undecided nodeInfo deleteOptions listers tracker timestamp lp ld bp e :
  Forall (fun pod => Outcome (drainabilityStatus pod (rulesInUse deleteOptions tracker))
                     = UndefinedOutcome)
         (podsOf (schedulerframework.Pods nodeInfo)) ->
  GetPodsForDeletionOnNodeDrain
    (podsOf (schedulerframework.Pods nodeInfo)) (pdbsOf tracker)
    (SkipNodesWithSystemPods deleteOptions)
    (SkipNodesWithLocalStorage deleteOptions)
    (SkipNodesWithCustomControllerPods deleteOptions)
    listers (int32 (MinReplicaCount deleteOptions)) timestamp = (lp, ld, bp, e) ->
  GetPodsToMove nodeInfo deleteOptions listers tracker timestamp =
  {| pods := lp; daemonSetPods := ld;
     blockingPod := match e with Some _ => bp | None => None end;
     err := e |}.
Proof.
  intros Hall Hcall.
  destruct (undecided_all _ _ Hall) as (Hu & Hm & Hd).
  assert (Hno : noBlock (rulesInUse deleteOptions tracker) (schedulerframework.Pods nodeInfo)).
  { unfold noBlock. unfold podsOf in Hall. apply Forall_fmap in Hall.
    eapply Forall_impl; [exact Hall|]. cbn. intros x ->. discriminate. }
  rewrite (DrainSpec.GetPodsToMove_finished _ _ _ _ _ lp ld bp e Hno).
  - rewrite Hm, Hd, !app_nil_r. reflexivity.
  - unfold legacyCall. rewrite Hu. exact Hcall.
Qed.

(** X12.  With an empty, non-nil list of rules in the options,
    [GetPodsToMove] hands every pod of the node to the legacy check and
    returns its two lists unchanged, its error, and its blocking pod if
    there is an error. *)
Theorem GetPodsToMove_no_rules nodeInfo deleteOptions listers tracker timestamp lp ld bp e :
  DrainabilityRules deleteOptions = Some [] ->
  GetPodsForDeletionOnNodeDrain
    (podsOf (schedulerframework.Pods nodeInfo)) (pdbsOf tracker)
    (SkipNodesWithSystemPods deleteOptions)
    (SkipNodesWithLocalStorage deleteOptions)
    (SkipNodesWithCustomControllerPods deleteOptions)
    listers (int32 (MinReplicaCount deleteOptions)) timestamp = (lp, ld, bp, e) ->
  GetPodsToMove nodeInfo deleteOptions listers tracker timestamp =
  {| pods := lp; daemonSetPods := ld;
     blockingPod := match e with Some _ => bp | None => None end;
     err := e |}.
Proof.
  intros Hrules. apply GetPodsToMove_all_undecided.
  unfold rulesInUse. rewrite Hrules. apply Forall_forall. intros pod _. reflexivity.
Qed.

(** X13.  With rules that are all disruption-budget rules, [GetPodsToMove]
    either returns a blocking pod with an error and no daemon-set pod (the
    chain blocked a pod), or it has handed every pod of the node to the
    legacy check and returns what the legacy check returned, with nothing
    merged into its lists. *)
Theorem GetPodsToMove_pdb_rules_only nodeInfo deleteOptions listers tracker timestamp lp ld bp e :
  Forall (fun f => exists r, f = PdbRule_Rule r) (rulesInUse deleteOptions tracker) ->
  GetPodsForDeletionOnNodeDrain
    (podsOf (schedulerframework.Pods nodeInfo)) (pdbsOf tracker)
    (SkipNodesWithSystemPods deleteOptions)
    (SkipNodesWithLocalStorage deleteOptions)
    (SkipNodesWithCustomControllerPods deleteOptions)
    listers (int32 (MinReplicaCount deleteOptions)) timestamp = (lp, ld, bp, e) ->
  (Exists (fun podInfo =>
             Outcome (drainabilityStatus (schedulerframework.Pod podInfo)
                        (rulesInUse deleteOptions tracker)) = BlockDrain)
          (schedulerframework.Pods nodeInfo)
   /\ blockingPod (GetPodsToMove nodeInfo deleteOptions listers tracker timestamp) <> None
   /\ err (GetPodsToMove nodeInfo deleteOptions listers tracker timestamp) <> None
   /\ daemonSetPods (GetPodsToMove nodeInfo deleteOptions listers tracker timestamp) = [])
  \/ GetPodsToMove nodeInfo deleteOptions listers tracker timestamp =
     {| pods := lp; daemonSetPods := ld;
        blockingPod := match e with Some _ => bp | None => None end;
        err := e |}.
Proof.
  intros Hpdb Hcall.
  destruct (DrainSpec.firstBlock_or_noBlock (rulesInUse deleteOptions tracker)
              (schedulerframework.Pods nodeInfo))
    as [Hno | (pre & k & post & Hpods & Hfirst)].
  - right. apply GetPodsToMove_all_undecided; [|exact Hcall].
    unfold podsOf. apply Forall_fmap. eapply Forall_impl; [exact Hno|].
    cbn. intros podInfo Hnb.
    destruct (pdb_chain_never_allows (schedulerframework.Pod podInfo) _ Hpdb) as [Hok _].
    destruct (Outcome (drainabilityStatus (schedulerframework.Pod podInfo)
                         (rulesInUse deleteOptions tracker))); congruence.
  - left. split; [rewrite Hpods; exact (firstBlock_Exists _ _ _ _ Hfirst)|].
    rewrite (DrainSpec.GetPodsToMove_blocked _ _ _ _ _ _ _ _ Hpods Hfirst).
    cbn [blockingPod err daemonSetPods].
    split; [discriminate|]. split; [|reflexivity].
    apply (pdb_chain_never_allows _ _ Hpdb), Hfirst.
Qed.

(** X14.  On a node without pods no rule is evaluated and nothing can
    block in the chain: [GetPodsToMove] returns what the legacy check
    returns for no pods. *)
Theorem GetPodsToMove_no_pods nodeInfo deleteOptions listers tracker timestamp lp ld bp e :
  schedulerframework.Pods nodeInfo = [] ->
  GetPodsForDeletionOnNodeDrain [] (pdbsOf tracker)
    (SkipNodesWithSystemPods deleteOptions)
    (SkipNodesWithLocalStorage deleteOptions)
    (SkipNodesWithCustomControllerPods deleteOptions)
    listers (int32 (MinReplicaCount deleteOptions)) timestamp = (lp, ld, bp, e) ->
  GetPodsToMove nodeInfo deleteOptions listers tracker timestamp =
  {| pods := lp; daemonSetPods := ld;
     blockingPod := match e with Some _ => bp | None => None end;
     err := e |}
  /\ evaluations.GetPodsToMove_log nodeInfo deleteOptions tracker = [].
Proof.
  intros Hpods Hcall. split.
  - apply GetPodsToMove_all_undecided; rewrite Hpods; [constructor | exact Hcall].
  - unfold evaluations.GetPodsToMove_log. rewrite Hpods. reflexivity.
Qed.

(** X15.  Options built by [NewNodeDeleteOptions] carry the default rules
    for the tracker they were built with.  When these rules block some pod
    of the node, [GetPodsToMove] returns that block whatever tracker it is
    called with: the tracker of the call is not consulted by the chain. *)
Theorem GetPodsToMove_rules_of_the_options_tracker
    nodeInfo (opts : config.AutoscalingOptions) listers listers' static dynamic
    timestamp timestamp' :
  Exists (fun podInfo =>
            Outcome (drainabilityStatus (schedulerframework.Pod podInfo)
                       (DefaultRules static)) = BlockDrain)
         (schedulerframework.Pods nodeInfo) ->
  GetPodsToMove nodeInfo (NewNodeDeleteOptions opts static) listers dynamic timestamp
  = GetPodsToMove nodeInfo (NewNodeDeleteOptions opts static) listers' static timestamp'.
Proof.
  intros Hex. apply GetPodsToMove_block_same_rules; [reflexivity | exact Hex].
Qed.

(** X16.  The minimum replica count reaches the legacy check as a 32-bit
    number: options whose counts differ by a multiple of 2^32 give the same
    result. *)
Theorem GetPodsToMove_MinReplicaCount_wraps
    nodeInfo deleteOptions listers tracker timestamp (n : Z) :
  GetPodsToMove nodeInfo
    {| SkipNodesWithSystemPods := SkipNodesWithSystemPods deleteOptions;
       SkipNodesWithLocalStorage := SkipNodesWithLocalStorage deleteOptions;
       SkipNodesWithCustomControllerPods := SkipNodesWithCustomControllerPods deleteOptions;
       MinReplicaCount := (MinReplicaCount deleteOptions + n * 2 ^ 32)%Z;
       DrainabilityRules := DrainabilityRules deleteOptions |}
    listers tracker timestamp
  = GetPodsToMove nodeInfo deleteOptions listers tracker timestamp.
Proof.
  unfold GetPodsToMove, rulesInUse. cbn [SkipNodesWithSystemPods SkipNodesWithLocalStorage
    SkipNodesWithCustomControllerPods MinReplicaCount DrainabilityRules].
  replace (int32 (MinReplicaCount deleteOptions + n * 2 ^ 32))
    with (int32 (MinReplicaCount deleteOptions)); [reflexivity|].
  unfold int32.
  replace (MinReplicaCount deleteOptions + n * 2 ^ 32 + 2 ^ 31)%Z
    with (MinReplicaCount deleteOptions + 2 ^ 31 + n * 2 ^ 32)%Z by lia.
  rewrite Z.mod_add by lia. reflexivity.
Qed.

(** X19.  The two mixed results have one origin each.  A blocking pod
    without an error comes only from a pod of the node that the chain
    blocks with a status without error; an error without a blocking pod
    comes only from the legacy check, after a chain that blocked no pod. *)
Theorem GetPodsToMove_mixed_results nodeInfo deleteOptions listers tracker timestamp :
  (blockingPod (GetPodsToMove nodeInfo deleteOptions listers tracker timestamp) <> None
   /\ err (GetPodsToMove nodeInfo deleteOptions listers tracker timestamp) = None ->
   Exists (fun podInfo =>
             Outcome (drainabilityStatus (schedulerframework.Pod podInfo)
                        (rulesInUse deleteOptions tracker)) = BlockDrain
             /\ Error (drainabilityStatus (schedulerframework.Pod podInfo)
                         (rulesInUse deleteOptions tracker)) = None)
          (schedulerframework.Pods nodeInfo))
  /\ (blockingPod (GetPodsToMove nodeInfo deleteOptions listers tracker timestamp) = None
      /\ err (GetPodsToMove nodeInfo deleteOptions listers tracker timestamp) <> None ->
      noBlock (rulesInUse deleteOptions tracker) (schedulerframework.Pods nodeInfo)
      /\ exists lp ld e,
           legacyCall nodeInfo deleteOptions listers tracker timestamp = (lp, ld, None, Some e)).
Proof.
  destruct (DrainSpec.firstBlock_or_noBlock (rulesInUse deleteOptions tracker)
              (schedulerframework.Pods nodeInfo))
    as [Hno | (pre & k & post & Hpods & Hfirst)].
  - destruct (legacyCall nodeInfo deleteOptions listers tracker timestamp)
      as [[[lp ld] bp] e] eqn:Hcall.
    rewrite (DrainSpec.GetPodsToMove_finished _ _ _ _ _ _ _ _ _ Hno Hcall).
    cbn [blockingPod err]. split.
    + intros [Hbp He]. subst e. contradiction.
    + intros [Hbp He]. split; [exact Hno|].
      destruct e as [e|]; [|contradiction]. subst bp. exists lp, ld, e. reflexivity.
  - rewrite (DrainSpec.GetPodsToMove_blocked _ _ _ _ _ _ _ _ Hpods Hfirst).
    cbn [blockingPod err]. split.
    + intros [_ He]. rewrite Hpods. apply Exists_app. right. left.
      split; [apply Hfirst | exact He].
    + intros [Hbp _]. discriminate.
Qed.

(** X20.  Rules that are undefined for the pod do not count: the chain
    returns what the chain of its decisive rules returns, and it is
    undefined exactly when every rule is undefined for the pod. *)
Theorem drainabilityStatus_decisive_rules pod dr :
  drainabilityStatus pod dr
  = drainabilityStatus pod
      (filter (fun f => Outcome (Drainable f pod) ≠ UndefinedOutcome) dr)
  /\ (Outcome (drainabilityStatus pod dr) = UndefinedOutcome
      <-> Forall (fun f => Outcome (Drainable f pod) = UndefinedOutcome) dr).
Proof.
  induction dr as [|f dr [IH1 IH2]].
  - split; [reflexivity|]. split; [constructor | reflexivity].
  - rewrite filter_cons.
    destruct (decide (Outcome (Drainable f pod) = UndefinedOutcome)) as [Hu|Hd].
    + rewrite decide_False by (intros Hn; exact (Hn Hu)).
      rewrite (DrainSpec.drainabilityStatus_cons_undefined _ _ _ Hu).
      split; [exact IH1|]. rewrite IH2. split.
      * intros Hall. constructor; assumption.
      * intros Hall. apply Forall_cons in Hall as [_ Hall]. exact Hall.
    + rewrite decide_True by exact Hd.
      rewrite !(DrainSpec.drainabilityStatus_cons_decisive _ _ _ Hd).
      split; [reflexivity|]. split.
      * intros Hu. contradiction.
      * intros Hall. apply Forall_cons in Hall as [Hu _]. contradiction.
Qed.

(** *** The log of rule evaluations *)

Lemma logged_chain_length i pod j dr :
  length (snd (evaluations.drainabilityStatus i pod j dr)) <= length dr.
Proof.
  revert j. induction dr as [|f dr IH]; intros j; [reflexivity|].
  cbn [evaluations.drainabilityStatus].
  rewrite DrainSpec.snd_bind. cbn [evaluations.callDrainable fst snd app length].
  case_decide; [cbn; lia | specialize (IH (S j)); lia].
Qed.

(** X17.  For one pod the chain evaluates its rules in order, from the
    first one up to the first rule that is decisive for the pod, and none of
    the rules after that one. *)
Theorem chain_stops_at_first_decisive_rule i pod j before f after :
  Forall (fun g => Outcome (Drainable g pod) = UndefinedOutcome) before ->
  Outcome (Drainable f pod) <> UndefinedOutcome ->
  map evaluations.byRule (snd (evaluations.drainabilityStatus i pod j (before ++ f :: after)))
  = seq j (S (length before)).
Proof.
  intros Hbefore Hf. revert j.
  induction Hbefore as [|g before Hg _ IH]; intros j;
    cbn [app evaluations.drainabilityStatus];
    rewrite DrainSpec.snd_bind; cbn [evaluations.callDrainable fst snd app map evaluations.byRule].
  - rewrite decide_True by exact Hf. reflexivity.
  - rewrite decide_False by (intros Hn; exact (Hn Hg)).
    rewrite IH. reflexivity.
Qed.

(** X18.  One call of [GetPodsToMove] evaluates at most as many rules as
    the node has pods times the chain has rules. *)
Theorem GetPodsToMove_log_bound nodeInfo deleteOptions tracker :
  length (evaluations.GetPodsToMove_log nodeInfo deleteOptions tracker)
  <= length (schedulerframework.Pods nodeInfo) * length (rulesInUse deleteOptions tracker).
Proof.
  unfold evaluations.GetPodsToMove_log.
  generalize (rulesInUse deleteOptions tracker) as dr.
  generalize (schedulerframework.Pods nodeInfo) as podInfos.
  intros podInfos dr.
  generalize (@nil apiv1.Pod) at 1 as a.
  generalize (@nil apiv1.Pod) at 1 as b.
  generalize (@nil apiv1.Pod) as c.
  generalize 0 as i.
  induction podInfos as [|podInfo rest IH]; intros i c b a; [reflexivity|].
  destruct (DrainSpec.logged_rangePods_cons dr i podInfo rest a b c) as (a' & b' & c' & ->).
  rewrite length_app.
  pose proof (logged_chain_length i (schedulerframework.Pod podInfo) 0 dr) as Hhead.
  case_decide.
  - cbn [length]. cbn. lia.
  - specialize (IH (S i) c' b' a'). cbn [length]. cbn. lia.
Qed.

End WithCollaborators.

(** ** The properties on the scenarios *)

Import scenarios.

Lemma drainabilityStatus_pdb_rules_only_witness :
  Outcome (drainabilityStatus web
             [PdbRule_Rule (NewPdbRule None);
              PdbRule_Rule (NewPdbRule (trackerOf [webExhausted]))]) <> DrainOk
  /\ (Outcome (drainabilityStatus web
                 [PdbRule_Rule (NewPdbRule None);
                  PdbRule_Rule (NewPdbRule (trackerOf [webExhausted]))]) = BlockDrain
      -> Error (drainabilityStatus web
                  [PdbRule_Rule (NewPdbRule None);
                   PdbRule_Rule (NewPdbRule (trackerOf [webExhausted]))]) <> None).
Proof.
  apply (drainabilityStatus_pdb_rules_only web
           [PdbRule_Rule (NewPdbRule None);
            PdbRule_Rule (NewPdbRule (trackerOf [webExhausted]))]).
  repeat (constructor; [eexists; reflexivity|]). constructor.
Defined.


Lemma GetPodsToMove_block_ignores_legacy_inputs_witness :
  GetPodsToMove (nodeOf [web; db]) (optionsWith (Some [blockDbSilently])) None None now
  = GetPodsToMove (nodeOf [web; db])
      {| SkipNodesWithSystemPods := false;
         SkipNodesWithLocalStorage := false;
         SkipNodesWithCustomControllerPods := true;
         MinReplicaCount := 7;
         DrainabilityRules := Some [blockDbSilently] |}
      someListers (trackerOf [webExhausted]) later.
Proof.
  apply (GetPodsToMove_block_ignores_legacy_inputs (nodeOf [web; db])).
  - reflexivity.
  - right. left. vm_compute. reflexivity.
Defined.

Lemma GetPodsToMove_no_rules_witness :
  GetPodsToMove (nodeOf [web; logger; db]) (optionsWith (Some [])) None
    (trackerOf [webExhausted]) now
  = {| pods := [web; db]; daemonSetPods := [logger]; blockingPod := None; err := None |}.
Proof.
  apply (GetPodsToMove_no_rules (nodeOf [web; logger; db]) (optionsWith (Some [])) None
           (trackerOf [webExhausted]) now [web; db] [logger] None None).
  - reflexivity.
  - vm_compute. reflexivity.
Defined.

Lemma GetPodsToMove_pdb_rules_only_witness :
  (Exists (fun podInfo =>
             Outcome (drainabilityStatus (schedulerframework.Pod podInfo)
                        (rulesInUse (optionsWith None) (trackerOf [webOpen]))) = BlockDrain)
          (schedulerframework.Pods (nodeOf [web; logger]))
   /\ blockingPod (GetPodsToMove (nodeOf [web; logger]) (optionsWith None) None
                     (trackerOf [webOpen]) now) <> None
   /\ err (GetPodsToMove (nodeOf [web; logger]) (optionsWith None) None
             (trackerOf [webOpen]) now) <> None
   /\ daemonSetPods (GetPodsToMove (nodeOf [web; logger]) (optionsWith None) None
                       (trackerOf [webOpen]) now) = [])
  \/ GetPodsToMove (nodeOf [web; logger]) (optionsWith None) None (trackerOf [webOpen]) now =
     {| pods := [web]; daemonSetPods := [logger]; blockingPod := None; err := None |}.
Proof.
  apply (GetPodsToMove_pdb_rules_only (nodeOf [web; logger]) (optionsWith None) None
           (trackerOf [webOpen]) now [web] [logger] None None).
  - repeat (constructor; [eexists; reflexivity|]). constructor.
  - vm_compute. reflexivity.
Defined.

Lemma GetPodsToMove_no_pods_witness :
  GetPodsToMove (nodeOf []) (optionsWith (Some [blockDbSilently])) None None now
  = {| pods := []; daemonSetPods := []; blockingPod := None; err := None |}
  /\ evaluations.GetPodsToMove_log (nodeOf []) (optionsWith (Some [blockDbSilently])) None = [].
Proof.
  apply (GetPodsToMove_no_pods (nodeOf []) (optionsWith (Some [blockDbSilently])) None None now
           [] [] None None).
  - reflexivity.
  - vm_compute. reflexivity.
Defined.

Lemma GetPodsToMove_rules_of_the_options_tracker_witness :
  GetPodsToMove (nodeOf [logger; web])
    (NewNodeDeleteOptions autoscaling (trackerOf [webExhausted])) None (trackerOf []) now
  = GetPodsToMove (nodeOf [logger; web])
      (NewNodeDeleteOptions autoscaling (trackerOf [webExhausted])) someListers
      (trackerOf [webExhausted]) later.
Proof.
  apply (GetPodsToMove_rules_of_the_options_tracker (nodeOf [logger; web]) autoscaling).
  right. left. vm_compute. reflexivity.
Defined.

Lemma chain_stops_at_first_decisive_rule_witness :
  map evaluations.byRule
      (snd (evaluations.drainabilityStatus 0 web 0
              ([blockDbSilently] ++ allowSystem :: [blockDbSilently; allowSystem])))
  = seq 0 2.
Proof.
  apply (chain_stops_at_first_decisive_rule 0 web 0 [blockDbSilently] allowSystem
           [blockDbSilently; allowSystem]).
  - repeat constructor.
  - vm_compute. discriminate.
Defined.

End DrainFacts.
